(* ===================================================================== *)
(* stock_portfolio_tracker: a shallow embedding of the portfolio stubs,   *)
(* the Google News sandbox and the NewsAPI client, with the properties    *)
(* of the natural-language specification stated and settled on it.        *)
(*                                                                        *)
(*   src/app/utils/helpers.py                     Module Helpers          *)
(*   src/app/core/portfolio.py                    Module PortfolioCore    *)
(*   src/sandboxes/news/google_news_deprecated.py Module GoogleNews       *)
(*   src/sandboxes/news/news_client.py            Module NewsClient       *)
(*   src/sandboxes/llm/                           Module Inference        *)
(*   src/sandboxes/yfinance/yfinance_sandbox.py   Module YahooFinance     *)
(* ===================================================================== *)

From Stdlib Require Import Ascii String QArith Qabs.
From stdpp Require Import gmap strings list pretty.

Set Warnings "-register-all".
Local Open Scope Z_scope.

(* --------------------------------------------------------------------- *)
(* Python values                                                          *)
(* --------------------------------------------------------------------- *)

(** A Python [str] is a sequence of Unicode code points. *)
Abbreviation str := (list N).

(** The code points of an ASCII literal. *)
Definition lit (s : string) : str :=
  N_of_ascii <$> list_ascii_of_string s.

(** The values that flow through the modelled functions.  A float is
    carried as the rational it denotes; no float arithmetic is done on a
    [PyFloat] in this development. *)
Inductive pyval : Type :=
| PyNone
| PyBool (b : bool)
| PyInt (z : Z)
| PyFloat (q : Q)
| PyStr (s : str)
| PyDate (y m d : Z)
| PyList (l : list pyval)
| PyDict (d : list (str * pyval)).

(** A raised exception: its class and [str(e)]. *)
Record exn : Type := Exn { exn_class : str; exn_msg : str }.

(** The outcome of a call: a returned value or a raised exception. *)
Inductive result (A : Type) : Type :=
| Return (a : A)
| Raise (e : exn).
Arguments Return {A} a.
Arguments Raise {A} e.

#[global] Instance result_ret : MRet result := λ A a, Return a.
#[global] Instance result_bind : MBind result :=
  λ A B k r, match r with Return a => k a | Raise e => Raise e end.
#[global] Instance result_fmap : FMap result :=
  λ A B f r, match r with Return a => Return (f a) | Raise e => Raise e end.

Definition returns {A} (r : result A) : bool :=
  match r with Return _ => true | Raise _ => false end.

Definition TypeError (msg : str) : exn := Exn (lit "TypeError") msg.
Definition ValueError (msg : str) : exn := Exn (lit "ValueError") msg.
Definition AttributeError (msg : str) : exn := Exn (lit "AttributeError") msg.
Definition KeyError (msg : str) : exn := Exn (lit "KeyError") msg.
(** [Exception(msg)], the base class itself. *)
Definition Exception (msg : str) : exn := Exn (lit "Exception") msg.

(** The built-in classes that derive from [BaseException] and not from
    [Exception]. *)
Definition base_exception_classes : list str :=
  [lit "BaseException"; lit "SystemExit"; lit "KeyboardInterrupt";
   lit "GeneratorExit"; lit "BaseExceptionGroup"].

(** [isinstance(e, Exception)]: what a clause [except Exception] takes.
    An interrupt of the process or an exit request is not taken. *)
Definition is_Exception (e : exn) : bool :=
  bool_decide (exn_class e ∉ base_exception_classes).

(** [type(v).__name__], as error messages quote it. *)
Definition type_name (v : pyval) : str :=
  match v with
  | PyNone => lit "NoneType"
  | PyBool _ => lit "bool"
  | PyInt _ => lit "int"
  | PyFloat _ => lit "float"
  | PyStr _ => lit "str"
  | PyDate _ _ _ => lit "datetime.date"
  | PyList _ => lit "list"
  | PyDict _ => lit "dict"
  end.

(** [d.get(key, default)] on the items of a dict (first binding wins: the
    items of a dict have distinct keys). *)
Fixpoint dict_get (d : list (str * pyval)) (key : str) (default : pyval) : pyval :=
  match d with
  | [] => default
  | (k, v) :: d' => if decide (k = key) then v else dict_get d' key default
  end.

(** [v[key]]: subscription of a value by a string key. *)
Definition subscript (v : pyval) (key : str) : result pyval :=
  match v with
  | PyDict d =>
      match list_find (λ kv, kv.1 = key) d with
      | Some (_, (_, x)) => Return x
      | None => Raise (KeyError (lit "'" ++ key ++ lit "'"))
      end
  | _ => Raise (TypeError (lit "'" ++ type_name v
                             ++ lit "' object is not subscriptable"))
  end.

(* --------------------------------------------------------------------- *)
(* src/app/utils/helpers.py                                               *)
(* --------------------------------------------------------------------- *)

Module Helpers.

(** [def safe_divide(numerator, denominator, default=0.0): pass].
    The body is the single statement [pass], so every call falls off the
    end of the function and returns [None]. *)
Definition safe_divide (numerator denominator : pyval) (default : pyval) : pyval :=
  PyNone.

End Helpers.

(* --------------------------------------------------------------------- *)
(* src/app/core/portfolio.py                                              *)
(* --------------------------------------------------------------------- *)

Module PortfolioCore.

(** An instance of [Portfolio]: its instance attributes.  [__init__] is
    [pass], so a fresh portfolio has none. *)
Record Portfolio : Type := { attrs : list (str * pyval) }.

(** A method call returns a value and leaves the object in a new state. *)
Definition method (A : Type) : Type := Portfolio → A * Portfolio.

(** [Portfolio(name, user_id)]: [__init__] is [pass]. *)
Definition __init__ (name user_id : str) : Portfolio := {| attrs := [] |}.

(** [def add_position(self, symbol, shares, price) -> bool: pass]. *)
Definition add_position (symbol : str) (shares price : pyval) : method pyval :=
  λ self, (PyNone, self).

(** [def remove_position(self, symbol) -> bool: pass]. *)
Definition remove_position (symbol : str) : method pyval :=
  λ self, (PyNone, self).

(** [def get_total_value(self) -> float: pass].  No quote source is
    consulted: the body makes no call at all. *)
Definition get_total_value : method pyval :=
  λ self, (PyNone, self).

(** [def get_performance(self, period="1y") -> dict: pass]. *)
Definition get_performance (period : str) : method pyval :=
  λ self, (PyNone, self).

End PortfolioCore.

(* --------------------------------------------------------------------- *)
(* Effects: the console and the network                                   *)
(* --------------------------------------------------------------------- *)

(** A computation that reads and updates a state of type [S]. *)
Definition State (S A : Type) : Type := S → A * S.

#[global] Instance state_ret {S} : MRet (State S) := λ A a s, (a, s).
#[global] Instance state_bind {S} : MBind (State S) :=
  λ A B k m s, let '(a, s') := m s in k a s'.

(** What lies outside the program: the lines printed so far (oldest
    first) and the state of the network and of the libraries that talk to
    it, of a type [Net] that the platform fixes. *)
Record World (Net : Type) : Type := { stdout : list str; net : Net }.
Arguments stdout {Net} w.
Arguments net {Net} w.

(** [print(line)]. *)
Definition print {Net} (line : str) : State (World Net) unit :=
  λ w, ((), {| stdout := stdout w ++ [line]; net := net w |}).

(** [time.sleep(seconds)]: time is not part of the model. *)
Definition sleep {Net} (seconds : Z) : State (World Net) unit := mret ().

(** An external call: it answers with a value or an exception and moves
    the network to a new state. *)
Definition external {Net} {A} (call : Net → result A * Net)
  : State (World Net) (result A) :=
  λ w, let '(r, n) := call (net w) in (r, {| stdout := stdout w; net := n |}).

(** [str(n)] for a list length. *)
Definition str_of_nat (n : nat) : str := N_of_ascii <$> list_ascii_of_string (pretty n).

(* --------------------------------------------------------------------- *)
(* Strings                                                                *)
(* --------------------------------------------------------------------- *)

(** [t.startswith(w)]. *)
Fixpoint startswith (t w : str) {struct w} : bool :=
  match w, t with
  | [], _ => true
  | _ :: _, [] => false
  | a :: w', b :: t' => (a =? b)%N && startswith t' w'
  end.

(** [w in t] for two strings: [w] occurs in [t] as a substring. *)
Fixpoint contains (t w : str) : bool :=
  startswith t w ||
  match t with
  | [] => false
  | _ :: t' => contains t' w
  end.

(** The number of positions of [t] at which [w] occurs. *)
Fixpoint occurrences (t w : str) : Z :=
  (if startswith t w then 1 else 0) +
  match t with
  | [] => 0
  | _ :: t' => occurrences t' w
  end.

(** [str.lower] on ASCII text: [A]..[Z] go to [a]..[z], every other code
    point below 128 stays. *)
Definition ascii_lower (t : str) : str :=
  (λ c, if (65 <=? c)%N && (c <=? 90)%N then (c + 32)%N else c) <$> t.

(** [sum(xs)] for integers. *)
Definition sum (xs : list Z) : Z := foldl Z.add 0 xs.

(** [round(x, 3)] on the rational [x]: the nearest multiple of 1/1000,
    a tie going to the even one. *)
Definition round3 (x : Q) : Q :=
  let n := Qnum x * 1000 in
  let d := Z.pos (Qden x) in
  let k := n / d in
  let r := n mod d in
  let k' := match 2 * r ?= d with
            | Lt => k
            | Gt => k + 1
            | Eq => if Z.even k then k else k + 1
            end in
  k' # 1000.

(* --------------------------------------------------------------------- *)
(* src/sandboxes/news/google_news_deprecated.py                           *)
(* --------------------------------------------------------------------- *)

Module GoogleNews.

(** A tag found inside an [<article>] element: [get_text().strip()] and
    its attributes. *)
Record tag : Type := { tag_text : str; tag_attrs : list (str * str) }.

(** [tag.get(name)]: the attribute, [None] when it is missing. *)
Definition tag_get (t : tag) (name : str) : option str :=
  snd <$> (snd <$> list_find (λ kv, kv.1 = name) (tag_attrs t)).

(** An [<article>] element as the scraper sees it: for a tag name the
    first descendant with that name, and the exception, if any, that the
    parser raises while the element is read. *)
Record element : Type := {
  descendants : list (str * tag);
  read_error : option exn;
}.

(** [article.find(name)]. *)
Definition find (article : element) (name : str) : option tag :=
  snd <$> (snd <$> list_find (λ kv, kv.1 = name) (descendants article)).

(** [a or b] on two tags that may be [None] (a tag is always truthy). *)
Definition or_else {A} (a b : option A) : option A :=
  match a with Some _ => a | None => b end.

(** The dict appended for one article.  [link] and [time] are [None]
    when the attribute is missing from the tag. *)
Record Article : Type := {
  title : str;
  link : option str;
  source : str;
  time : option str;
  query : str;
}.

(** What the sandbox takes from the Python runtime and from its
    libraries ([requests], [bs4], [urllib]). *)
Class Platform : Type := {
  Net : Type;
  (** [str.lower] *)
  lower : str → str;
  (** [urllib.parse.quote_plus] *)
  quote_plus : str → str;
  (** a [requests.Session] *)
  Session : Type;
  (** [requests.Session()] followed by [headers.update(h)] *)
  new_session : list (str * str) → Session;
  (** [session.get(url, timeout=t)], [raise_for_status()],
      [BeautifulSoup(response.content, "html.parser")] and
      [find_all("article")]: the elements found, or the exception that the
      first failing one of the four raises *)
  fetch_articles : Session → str → Z → Net → result (list element) * Net;
}.

Section Sandbox.
Context `{Platform}.

Record GoogleNewsSandbox : Type := {
  base_url : str;
  headers : list (str * str);
  session : Session;
}.

Definition __init__ : GoogleNewsSandbox :=
  let base_url := lit "https://news.google.com" in
  let headers :=
    [(lit "User-Agent",
      lit "Mozilla/5.0 (Windows NT 10.0; Win64; x64) AppleWebKit/537.36 (KHTML, like Gecko) Chrome/91.0.4472.124 Safari/537.36")] in
  {| base_url := base_url; headers := headers; session := new_session headers |}.

(** The body of the inner [try] of [search_news], for one element. *)
Definition parse_article (self : GoogleNewsSandbox) (query : str) (article : element)
  : result Article :=
  match read_error article with
  | Some e => Raise e
  | None =>
      let title_element := or_else (find article (lit "h3")) (find article (lit "h4")) in
      let title := match title_element with
                   | Some t => tag_text t
                   | None => lit "No title"
                   end in
      let link_element := find article (lit "a") in
      let link := match link_element with
                  | Some a => tag_get a (lit "href")
                  | None => Some []
                  end in
      let link := match link with
                  | Some l => if bool_decide (l ≠ []) && startswith l (lit "./")
                              then Some (base_url self ++ drop 1 l)
                              else Some l
                  | None => None
                  end in
      let source_element := or_else (find article (lit "time")) (find article (lit "span")) in
      let source := match source_element with
                    | Some t => tag_text t
                    | None => lit "Unknown source"
                    end in
      let time_element := find article (lit "time") in
      let time_str := match time_element with
                      | Some t => tag_get t (lit "datetime")
                      | None => Some []
                      end in
      Return {| title := title; link := link; source := source;
                time := time_str; query := query |}
  end.

(** The loop [for article in article_elements[:10]] once the slice is
    taken: a parsed article is appended, a failing one is reported and
    skipped. *)
Fixpoint parse_loop (self : GoogleNewsSandbox) (query : str)
    (article_elements : list element) (articles : list Article)
  : State (World Net) (list Article) :=
  match article_elements with
  | [] => mret articles
  | article :: rest =>
      match parse_article self query article with
      | Return a => parse_loop self query rest (articles ++ [a])
      | Raise e =>
          print ([9888; 65039]%N ++ lit "  Error parsing article: " ++ exn_msg e) ;;
          parse_loop self query rest articles
      end
  end.

(** The URL that [search_news] requests for [query]. *)
Definition search_url (self : GoogleNewsSandbox) (query : str) : str :=
  let formatted_query := quote_plus query in
  base_url self ++ lit "/search?q=" ++ formatted_query
                ++ lit "&hl=en-US&gl=US&ceid=US:en".

(** [search_news(self, query, days=7)].  The outer handler,
    [except Exception as e], takes an exception of the request when it is
    an [Exception]: the error is printed and the empty list returned; an
    exception of another class goes on to the caller. *)
Definition search_news (self : GoogleNewsSandbox) (query : str) (days : Z)
  : State (World Net) (result (list Article)) :=
  let search_url := search_url self query in
  print ([128269]%N ++ lit " Searching for: " ++ query) ;;
  response ← external (fetch_articles (session self) search_url 10) ;
  match response with
  | Return article_elements =>
      articles ← parse_loop self query (take 10 article_elements) [] ;
      print ([9989]%N ++ lit " Found " ++ str_of_nat (length articles)
                      ++ lit " articles for '" ++ query ++ lit "'") ;;
      mret (Return articles)
  | Raise e =>
      if is_Exception e then
        print ([10060]%N ++ lit " Error searching news for '" ++ query
                         ++ lit "': " ++ exn_msg e) ;;
        mret (Return [])
      else
        mret (Raise e)
  end.

(** The loop [for query in queries] of [get_stock_news]. *)
Fixpoint fetch_loop (self : GoogleNewsSandbox) (days : Z)
    (queries : list str) (all_articles : list Article)
  : State (World Net) (result (list Article)) :=
  match queries with
  | [] => mret (Return all_articles)
  | query :: rest =>
      articles ← search_news self query days ;
      match articles with
      | Return articles =>
          sleep 1 ;;
          fetch_loop self days rest (all_articles ++ articles)
      | Raise e => mret (Raise e)
      end
  end.

(** The loop [for article in all_articles] of [get_stock_news], from a
    given state of [seen_titles] and [unique_articles]. *)
Fixpoint remove_duplicates (all_articles : list Article)
    (seen_titles : gset str) (unique_articles : list Article) : list Article :=
  match all_articles with
  | [] => unique_articles
  | article :: rest =>
      if decide (title article ∉ seen_titles)
      then remove_duplicates rest ({[title article]} ∪ seen_titles)
                             (unique_articles ++ [article])
      else remove_duplicates rest seen_titles unique_articles
  end.

(** [get_stock_news(self, symbol, company_name="", days=7)]. *)
Definition get_stock_news (self : GoogleNewsSandbox) (symbol company_name : str)
    (days : Z) : State (World Net) (result (list Article)) :=
  let queries := [symbol] in
  let queries := if bool_decide (company_name ≠ [])
                 then queries ++ [company_name; symbol ++ lit " " ++ company_name]
                 else queries in
  fetched ← fetch_loop self days queries [] ;
  match fetched with
  | Return all_articles =>
      let unique_articles := remove_duplicates all_articles ∅ [] in
      mret (Return (take 15 unique_articles))
  | Raise e => mret (Raise e)
  end.

Definition positive_words : list str :=
  lit <$> ["up"; "rise"; "gain"; "positive"; "growth"; "profit"; "earnings";
           "beat"; "strong"; "bullish"; "surge"; "rally"; "higher";
           "increase"; "success"]%string.

Definition negative_words : list str :=
  lit <$> ["down"; "fall"; "drop"; "negative"; "loss"; "decline"; "miss";
           "weak"; "bearish"; "crash"; "lower"; "decrease"; "failure";
           "risk"; "concern"]%string.

(** The dict returned by [analyze_sentiment]. *)
Record Sentiment : Type := {
  sentiment : str;
  score : Q;
  positive_hits : Z;    (* key "positive_words" *)
  negative_hits : Z;    (* key "negative_words" *)
}.

(** [sum(1 for word in words if word in text_lower)]. *)
Definition count_words (words : list str) (text_lower : str) : Z :=
  sum ((λ _, 1) <$> filter (λ word, contains text_lower word = true) words).

(** [analyze_sentiment(self, text)].

    The score is a float in the source.  It is modelled by a rational:
    both counts are integers between 0 and 15, so the quotient is the
    double nearest to a fraction with a denominator of at most 31, and
    [round(score, 3)] of that double is the decimal that [round3] gives
    for the fraction itself (a fraction of this kind lies on a rounding
    tie only when its denominator is 16, where the double is exact and
    Python rounds the tie to even, as [round3] does). *)
Definition analyze_sentiment (self : GoogleNewsSandbox) (text : str) : Sentiment :=
  let text_lower := lower text in
  let positive_count := count_words positive_words text_lower in
  let negative_count := count_words negative_words text_lower in
  let '(sentiment, score) :=
    if bool_decide (positive_count > negative_count) then
      (lit "positive",
       (inject_Z positive_count / inject_Z (positive_count + negative_count + 1))%Q)
    else if bool_decide (negative_count > positive_count) then
      (lit "negative",
       (inject_Z negative_count / inject_Z (positive_count + negative_count + 1))%Q)
    else
      (lit "neutral", (1 # 2)%Q) in
  {| sentiment := sentiment;
     score := round3 score;
     positive_hits := positive_count;
     negative_hits := negative_count |}.

(** One row of the frame that [analyze_news_sentiment] builds. *)
Record AnalyzedArticle : Type := {
  row_title : str;
  row_source : str;
  row_link : option str;
  row_sentiment : str;
  row_sentiment_score : Q;
  row_positive_words : Z;
  row_negative_words : Z;
  row_query : str;
}.

(** [analyze_news_sentiment(self, articles)].  The frame is modelled by
    the list of its rows, in order; the empty frame returned for an empty
    input has none. *)
Definition analyze_news_sentiment (self : GoogleNewsSandbox)
    (articles : list Article) : list AnalyzedArticle :=
  if bool_decide (articles = []) then []
  else
    (λ article,
       let analysis := analyze_sentiment self (title article) in
       {| row_title := title article;
          row_source := source article;
          row_link := link article;
          row_sentiment := sentiment analysis;
          row_sentiment_score := score analysis;
          row_positive_words := positive_hits analysis;
          row_negative_words := negative_hits analysis;
          row_query := query article |}) <$> articles.

Definition market_queries : list str :=
  lit <$> ["stock market"; "Wall Street"; "S&P 500"; "NASDAQ"; "Dow Jones";
           "market news"; "trading news"]%string.

(** [get_market_news(self, days=7)].  Its loop is the loop of
    [get_stock_news]: search, extend, sleep one second. *)
Definition get_market_news (self : GoogleNewsSandbox) (days : Z)
  : State (World Net) (result (list Article)) :=
  fetched ← fetch_loop self days (take 3 market_queries) [] ;
  match fetched with
  | Return all_market_news => mret (Return (take 10 all_market_news))
  | Raise e => mret (Raise e)
  end.

End Sandbox.

(** A platform for evaluating the sandbox on ASCII text and on queries
    made of letters, digits and spaces: the network is a table from URLs
    to the outcome of fetching them, which a fetch leaves as it is. *)
Definition table_platform : Platform := {|
  Net := list (str * result (list element));
  lower := ascii_lower;
  quote_plus := fmap (λ c, if (c =? 32)%N then 43%N else c);
  Session := list (str * str);
  new_session := λ h, h;
  fetch_articles := λ _ url _ net,
    (match list_find (λ kv, kv.1 = url) net with
     | Some (_, (_, r)) => r
     | None => Raise (Exception (lit "404 Client Error"))
     end, net);
|}.

(** A results page with the same headline twice and an element that
    cannot be read in between, as the answer to the search for AAPL. *)
Definition headline (t : str) : element :=
  {| descendants := [(lit "h3", {| tag_text := t; tag_attrs := [] |})];
     read_error := None |}.

Definition unreadable : element :=
  {| descendants := [];
     read_error := Some (Exn (lit "AttributeError") (lit "broken element")) |}.

Definition sample_page : list element :=
  [headline (lit "Apple up"); unreadable; headline (lit "Apple up")].

Definition sample_world : World (@Net table_platform) :=
  {| stdout := [];
     net := [(search_url (H := table_platform) __init__ (lit "AAPL"),
              Return sample_page)] |}.


(** Six headlines each for the first two market queries, and no page
    for any other query. *)
Definition market_world : World (@Net table_platform) :=
  {| stdout := [];
     net := [(search_url (H := table_platform) __init__ (lit "stock market"),
              Return (headline <$> [lit "m1"; lit "m2"; lit "m3";
                                    lit "m4"; lit "m5"; lit "m6"]));
             (search_url (H := table_platform) __init__ (lit "Wall Street"),
              Return (headline <$> [lit "m1"; lit "w2"; lit "w3";
                                    lit "w4"; lit "w5"; lit "w6"]))] |}.

(** The article that [search_news] makes of a headline. *)
Definition headline_article (t q : str) : Article :=
  {| title := t; link := Some []; source := lit "Unknown source";
     time := Some []; query := q |}.

End GoogleNews.

(* --------------------------------------------------------------------- *)
(* src/sandboxes/news/news_client.py                                      *)
(* --------------------------------------------------------------------- *)

Module NewsClient.

(** [v.get(key, default)]: defined on a dict only. *)
Definition get (v : pyval) (key : str) (default : pyval) : result pyval :=
  match v with
  | PyDict d => Return (dict_get d key default)
  | _ => Raise (AttributeError (lit "'" ++ type_name v
                                 ++ lit "' object has no attribute 'get'"))
  end.

(** The items that [for x in v] visits. *)
Definition iterate (v : pyval) : result (list pyval) :=
  match v with
  | PyList l => Return l
  | PyDict d => Return ((λ kv, PyStr kv.1) <$> d)
  | PyStr s => Return ((λ c, PyStr [c]) <$> s)
  | _ => Raise (TypeError (lit "'" ++ type_name v ++ lit "' object is not iterable"))
  end.

(** The dataclass [NewsArticle]; a dataclass does not check the types
    of its fields. *)
Record NewsArticle : Type := {
  source_id : pyval;
  source_name : pyval;
  author : pyval;
  title : pyval;
  description : pyval;
  url : pyval;
  url_to_image : pyval;
  published_at : pyval;
  content : pyval;
}.

(** The dataclass [NewsResponse]. *)
Record NewsResponse : Type := {
  status : pyval;
  total_results : pyval;
  articles : list NewsArticle;
}.

(** What the client takes from the [newsapi] library and from
    [datetime]. *)
Class Api : Type := {
  Net : Type;
  (** [get_top_headlines] of [NewsApiClient(api_key=key)], called with keywords *)
  api_get_top_headlines : str → list (str * pyval) → Net → result pyval * Net;
  (** [get_everything] of the same, called with keywords *)
  api_get_everything : str → list (str * pyval) → Net → result pyval * Net;
  (** [get_sources] of the same, called with keywords *)
  api_get_sources : str → list (str * pyval) → Net → result pyval * Net;
  (** [d.strftime("%Y-%m-%d")] for the date [y]-[m]-[d] *)
  strftime_ymd : Z → Z → Z → str;
}.

(** A call of a function with the keyword dict [kwargs] unpacked, when the
    parameters of the function, all with defaults, are [signature] and its qualified name is [name]: the value of every parameter, in the order
    of the signature, or [TypeError] for a keyword that names none. *)
Definition bind_keywords (name : str) (signature : list (str * pyval))
    (kwargs : list (str * pyval)) : result (list (str * pyval)) :=
  match list_find (λ kv, kv.1 ∉ signature.*1) kwargs with
  | Some (_, (k, _)) =>
      Raise (TypeError (name ++ lit "() got an unexpected keyword argument '"
                             ++ k ++ lit "'"))
  | None =>
      Return ((λ p, (p.1, dict_get kwargs p.1 p.2)) <$> signature)
  end.

Section Client.
Context `{Api}.

(** An instance of [NewsAPIClient]: the key held by its [NewsApiClient]. *)
Record NewsAPIClient : Type := { client : str }.

(** [os.getenv(name)]. *)
Definition getenv (environ : gmap str str) (name : str) : option str :=
  environ !! name.

(** [NewsAPIClient(api_key)], in a process whose environment is
    [environ]. *)
Definition __init__ (environ : gmap str str) (api_key : option str)
  : result NewsAPIClient :=
  match api_key with
  | Some key => Return {| client := key |}
  | None =>
      match getenv environ (lit "API_NEWS_KEY") with
      | Some key =>
          if bool_decide (key ≠ [])
          then Return {| client := key |}
          else Raise (ValueError (lit "API key not found. Set API_NEWS_KEY environment variable or pass api_key parameter."))
      | None =>
          Raise (ValueError (lit "API key not found. Set API_NEWS_KEY environment variable or pass api_key parameter."))
      end
  end.

(** One article of [_parse_response]. *)
Definition parse_article_data (article_data : pyval) : result NewsArticle :=
  source ← get article_data (lit "source") (PyDict []) ;
  source_id ← get source (lit "id") (PyStr []) ;
  source_name ← get source (lit "name") (PyStr []) ;
  author ← get article_data (lit "author") PyNone ;
  title ← get article_data (lit "title") (PyStr []) ;
  description ← get article_data (lit "description") PyNone ;
  url ← get article_data (lit "url") (PyStr []) ;
  url_to_image ← get article_data (lit "urlToImage") PyNone ;
  published_at ← get article_data (lit "publishedAt") (PyStr []) ;
  content ← get article_data (lit "content") PyNone ;
  mret {| source_id := source_id; source_name := source_name;
          author := author; title := title; description := description;
          url := url; url_to_image := url_to_image;
          published_at := published_at; content := content |}.

(** The loop [for article_data in ...] of [_parse_response]. *)
Fixpoint parse_articles (items : list pyval) (articles : list NewsArticle)
  : result (list NewsArticle) :=
  match items with
  | [] => mret articles
  | article_data :: rest =>
      article ← parse_article_data article_data ;
      parse_articles rest (articles ++ [article])
  end.

(** [_parse_response(self, response)]. *)
Definition _parse_response (self : NewsAPIClient) (response : pyval)
  : result NewsResponse :=
  items ← get response (lit "articles") (PyList []) ;
  items ← iterate items ;
  articles ← parse_articles items [] ;
  status ← get response (lit "status") (PyStr []) ;
  total_results ← get response (lit "totalResults") (PyInt 0) ;
  mret {| status := status; total_results := total_results;
          articles := articles |}.

(** [except Exception as e: raise Exception(f"{prefix}{str(e)}")]: an
    exception that is no [Exception] is not taken and stays as it is. *)
Definition reraise {A} (prefix : str) (r : result A) : result A :=
  match r with
  | Return a => Return a
  | Raise e => if is_Exception e then Raise (Exception (prefix ++ exn_msg e))
               else Raise e
  end.

(** The parameters of [get_top_headlines] after [self], with their
    defaults. *)
Definition top_headlines_signature : list (str * pyval) :=
  [(lit "q", PyNone); (lit "sources", PyNone); (lit "category", PyNone);
   (lit "language", PyStr (lit "en")); (lit "country", PyNone);
   (lit "page_size", PyInt 20); (lit "page", PyInt 1)].

(** [get_top_headlines(self, q=None, ..., page=1)], called with the
    keyword dict [kwargs] unpacked.  The keywords handed to the
    library are the parameters, in the order of the signature. *)
Definition get_top_headlines (self : NewsAPIClient) (kwargs : list (str * pyval))
  : State (World Net) (result NewsResponse) :=
  match bind_keywords (lit "NewsAPIClient.get_top_headlines")
                      top_headlines_signature kwargs with
  | Raise e => mret (Raise e)
  | Return args =>
      response ← external (api_get_top_headlines (client self) args) ;
      mret (reraise (lit "Error fetching top headlines: ")
                    (response ≫= _parse_response self))
  end.

(** The parameters of [get_everything] after [self], with their
    defaults. *)
Definition everything_signature : list (str * pyval) :=
  [(lit "q", PyNone); (lit "sources", PyNone); (lit "domains", PyNone);
   (lit "from_param", PyNone); (lit "to", PyNone);
   (lit "language", PyStr (lit "en")); (lit "sort_by", PyStr (lit "relevancy"));
   (lit "page_size", PyInt 20); (lit "page", PyInt 1)].

(** [x.strftime("%Y-%m-%d") if isinstance(x, (date, datetime)) else x]. *)
Definition date_to_string (x : pyval) : pyval :=
  match x with
  | PyDate y m d => PyStr (strftime_ymd y m d)
  | _ => x
  end.

(** [get_everything(self, q=None, ..., page=1)], called with the keyword
    dict [kwargs] unpacked. *)
Definition get_everything (self : NewsAPIClient) (kwargs : list (str * pyval))
  : State (World Net) (result NewsResponse) :=
  match bind_keywords (lit "NewsAPIClient.get_everything")
                      everything_signature kwargs with
  | Raise e => mret (Raise e)
  | Return args =>
      let args :=
        (λ p : str * pyval,
           if bool_decide (p.1 = lit "from_param" ∨ p.1 = lit "to")
           then (p.1, date_to_string p.2) else p) <$> args in
      response ← external (api_get_everything (client self) args) ;
      mret (reraise (lit "Error fetching articles: ")
                    (response ≫= _parse_response self))
  end.

(** The parameters of [get_sources] after [self], with their defaults. *)
Definition sources_signature : list (str * pyval) :=
  [(lit "category", PyNone); (lit "language", PyStr (lit "en"));
   (lit "country", PyNone)].

(** [get_sources(self, category=None, language=..., country=None)],
    called with the keyword dict [kwargs] unpacked. *)
Definition get_sources (self : NewsAPIClient) (kwargs : list (str * pyval))
  : State (World Net) (result pyval) :=
  match bind_keywords (lit "NewsAPIClient.get_sources")
                      sources_signature kwargs with
  | Raise e => mret (Raise e)
  | Return args =>
      response ← external (api_get_sources (client self) args) ;
      mret (reraise (lit "Error fetching sources: ") response)
  end.

(** [get_news(endpoint, kwargs)], where [kwargs] is the dict of the other
    keywords of the call, in a process whose environment is [environ]. *)
Definition get_news (environ : gmap str str) (endpoint : str)
    (kwargs : list (str * pyval)) : State (World Net) (result NewsResponse) :=
  match __init__ environ None with
  | Raise e => mret (Raise e)
  | Return client =>
      if bool_decide (endpoint = lit "top_headlines") then
        get_top_headlines client kwargs
      else if bool_decide (endpoint = lit "everything") then
        get_everything client kwargs
      else
        mret (Raise (ValueError (lit "endpoint must be either 'top_headlines' or 'everything'")))
  end.

End Client.

(** A library whose every request fails with the same exception, and one
    that answers every request with an empty page. *)
Definition failing_api (e : exn) : Api := {|
  Net := unit;
  api_get_top_headlines := λ _ _ n, (Raise e, n);
  api_get_everything := λ _ _ n, (Raise e, n);
  api_get_sources := λ _ _ n, (Raise e, n);
  strftime_ymd := λ _ _ _, [];
|}.

Definition empty_page : pyval :=
  PyDict [(lit "status", PyStr (lit "ok")); (lit "totalResults", PyInt 0);
          (lit "articles", PyList [])].

Definition empty_api : Api := {|
  Net := unit;
  api_get_top_headlines := λ _ _ n, (Return empty_page, n);
  api_get_everything := λ _ _ n, (Return empty_page, n);
  api_get_sources := λ _ _ n, (Return (PyDict []), n);
  strftime_ymd := λ _ _ _, [];
|}.

End NewsClient.

(* --------------------------------------------------------------------- *)
(* src/sandboxes/llm/summarization.py, sentiment_analysis.py and          *)
(* llama_huggingface.py                                                   *)
(* --------------------------------------------------------------------- *)

(** [try: body  except Exception as e: handler(e)], for a body and a
    handler that end in a [return]: the handler takes the instances of
    [Exception]; any other exception leaves the statement. *)
Definition try_except {Net A} (body : State (World Net) (result A))
    (handler : exn → State (World Net) A) : State (World Net) (result A) :=
  outcome ← body ;
  match outcome with
  | Return a => mret (Return a)
  | Raise e =>
      if is_Exception e then a ← handler e ; mret (Return a)
      else mret (Raise e)
  end.

(** [os.environ[name]]. *)
Definition environ_getitem (environ : gmap str str) (name : str) : result str :=
  match environ !! name with
  | Some value => Return value
  | None => Raise (KeyError (lit "'" ++ name ++ lit "'"))
  end.

Module Inference.

(** What the three scripts take from [huggingface_hub]. *)
Class Hub : Type := {
  Net : Type;
  (** [InferenceClient(model=m, token=t).summarization(inputs)], as
      [summarization m t inputs] *)
  summarization : str → str → str → Net → result pyval * Net;
  (** [InferenceClient(model=m, token=t).text_classification(inputs)] *)
  text_classification : str → str → str → Net → result pyval * Net;
  (** [InferenceClient(provider="auto", api_key=t).chat.completions
      .create(model=m, messages=ms)], as [chat_completion t m ms] with
      [ms] the role and the content of every message: the [message] of
      each of the [choices] of the completion, in order *)
  chat_completion : str → str → list (str * str) → Net → result (list pyval) * Net;
}.

Section Scripts.
Context `{Hub}.

(** [get_bart_summary(text)], in a process whose environment is
    [environ]. *)
Definition get_bart_summary (environ : gmap str str) (text : str)
  : State (World Net) (result pyval) :=
  try_except
    (match environ_getitem environ (lit "HUGGINGFACE_TOKEN") with
     | Raise e => mret (Raise e)
     | Return token =>
         let inputs := lit "summarize: " ++ text in
         external (summarization (lit "facebook/bart-large-cnn") token inputs)
     end)
    (λ e, print (lit "Error making summarization request: " ++ exn_msg e) ;;
          mret PyNone).

(** [get_financial_sentiment(text)]. *)
Definition get_financial_sentiment (environ : gmap str str) (text : str)
  : State (World Net) (result pyval) :=
  try_except
    (match environ_getitem environ (lit "HUGGINGFACE_TOKEN") with
     | Raise e => mret (Raise e)
     | Return token =>
         let inputs := lit "summarize: " ++ text in
         external (text_classification
                     (lit "mrm8488/distilroberta-finetuned-financial-news-sentiment-analysis")
                     token inputs)
     end)
    (λ e, print (lit "Error making summarization request: " ++ exn_msg e) ;;
          mret PyNone).

Definition default_system_message : str :=
  lit "You are a helpful AI assistant that provides accurate and concise answers.".

(** [choices[0]]. *)
Definition first_choice (choices : list pyval) : result pyval :=
  match choices with
  | message :: _ => Return message
  | [] => Raise (Exn (lit "IndexError") (lit "list index out of range"))
  end.

(** [get_llama_completion(prompt, system_message)].  The handler for
    [KeyError] comes first and takes every exception of that class. *)
Definition get_llama_completion (environ : gmap str str)
    (prompt system_message : str) : State (World Net) (result pyval) :=
  try_except
    (match environ_getitem environ (lit "HUGGINGFACE_TOKEN") with
     | Raise e => mret (Raise e)
     | Return api_key =>
         completion ← external
           (chat_completion api_key (lit "meta-llama/Llama-3.3-70B-Instruct")
              [(lit "system", system_message); (lit "user", prompt)]) ;
         mret (completion ≫= first_choice)
     end)
    (λ e, if bool_decide (exn_class e = lit "KeyError") then
            print ([10060]%N ++ lit " Error: HUGGINGFACE_TOKEN environment variable not found") ;;
            mret PyNone
          else
            print ([10060]%N ++ lit " Error making inference request: " ++ exn_msg e) ;;
            mret PyNone).

End Scripts.

(** A hub that fails every request with the same exception, and one that
    answers a chat with no choice at all. *)
Definition failing_hub (e : exn) : Hub := {|
  Net := unit;
  summarization := λ _ _ _ n, (Raise e, n);
  text_classification := λ _ _ _ n, (Raise e, n);
  chat_completion := λ _ _ _ n, (Raise e, n);
|}.

Definition echo_hub : Hub := {|
  Net := unit;
  summarization := λ _ _ inputs n, (Return (PyStr inputs), n);
  text_classification := λ _ _ inputs n, (Return (PyStr inputs), n);
  chat_completion := λ _ _ _ n, (Return [], n);
|}.

End Inference.

(* --------------------------------------------------------------------- *)
(* src/sandboxes/yfinance/yfinance_sandbox.py                             *)
(* --------------------------------------------------------------------- *)

Module YahooFinance.

(** What the sandbox takes from [yfinance]. *)
Class Yahoo : Type := {
  Net : Type;
  (** [yf.Ticker(symbol).info] *)
  ticker_info : str → Net → result pyval * Net;
}.

(** The dict [stock_info] that [get_stock_info] builds from [info]. *)
Definition stock_info (symbol : str) (info : pyval) : result (list (str * pyval)) :=
  name ← NewsClient.get info (lit "longName") (PyStr (lit "N/A")) ;
  sector ← NewsClient.get info (lit "sector") (PyStr (lit "N/A")) ;
  industry ← NewsClient.get info (lit "industry") (PyStr (lit "N/A")) ;
  market_cap ← NewsClient.get info (lit "marketCap") (PyInt 0) ;
  current_price ← NewsClient.get info (lit "currentPrice") (PyInt 0) ;
  high ← NewsClient.get info (lit "fiftyTwoWeekHigh") (PyInt 0) ;
  low ← NewsClient.get info (lit "fiftyTwoWeekLow") (PyInt 0) ;
  pe_ratio ← NewsClient.get info (lit "trailingPE") (PyInt 0) ;
  dividend_yield ← NewsClient.get info (lit "dividendYield") (PyInt 0) ;
  volume ← NewsClient.get info (lit "volume") (PyInt 0) ;
  beta ← NewsClient.get info (lit "beta") (PyInt 0) ;
  mret [(lit "Symbol", PyStr symbol); (lit "Name", name);
        (lit "Sector", sector); (lit "Industry", industry);
        (lit "Market Cap", market_cap); (lit "Current Price", current_price);
        (lit "52 Week High", high); (lit "52 Week Low", low);
        (lit "P/E Ratio", pe_ratio); (lit "Dividend Yield", dividend_yield);
        (lit "Volume", volume); (lit "Beta", beta)].

Section Sandbox.
Context `{Yahoo}.

(** [get_stock_info(self, symbol)]; the method reads no attribute of
    [self].  The value is the list of the items of the returned dict. *)
Definition get_stock_info (symbol : str)
  : State (World Net) (result (list (str * pyval))) :=
  try_except
    (info ← external (ticker_info symbol) ;
     match info ≫= stock_info symbol with
     | Return stock_info =>
         print ([9989]%N ++ lit " Retrieved info for " ++ symbol) ;;
         mret (Return stock_info)
     | Raise e => mret (Raise e)
     end)
    (λ e, print ([10060]%N ++ lit " Error getting info for " ++ symbol
                           ++ lit ": " ++ exn_msg e) ;;
          mret []).

End Sandbox.

(** A provider that answers every symbol with the same [info]. *)
Definition constant_yahoo (info : result pyval) : Yahoo := {|
  Net := unit;
  ticker_info := λ _ n, (info, n);
|}.

End YahooFinance.

(* ===================================================================== *)
(* Properties                                                             *)
(* ===================================================================== *)

(** C4 (the code at the call of the claim): [safe_divide(5, 0, default=0.0)]
    returns [None], not the default [0.0] that the claim and the function's
    docstring ("Division result or default value") promise. *)
Theorem safe_divide_5_0_returns_None :
  Helpers.safe_divide (PyInt 5) (PyInt 0) (PyFloat 0) = PyNone
  ∧ Helpers.safe_divide (PyInt 5) (PyInt 0) (PyFloat 0) ≠ PyFloat 0.
Proof. split; [reflexivity | discriminate]. Qed.

(** C5 (the code on an empty portfolio): [get_performance] raises nothing
    and returns [None]; the result is not a dictionary, so reading
    [total_return_pct] from it raises [TypeError] instead of giving 0. *)
Theorem get_performance_empty_returns_None :
  let p := PortfolioCore.__init__ (lit "main") (lit "u1") in
  (PortfolioCore.get_performance (lit "1y") p).1 = PyNone
  ∧ returns (subscript (PortfolioCore.get_performance (lit "1y") p).1
                       (lit "total_return_pct")) = false.
Proof. split; reflexivity. Qed.

(** C6 (the code after one purchase): for every symbol, share count and
    price, [add_position] on a fresh portfolio followed by
    [get_total_value] yields [None], which is not the number
    [shares * price]. *)
Theorem add_position_get_total_value_returns_None :
  ∀ (symbol : str) (shares price : Q),
    let p0 := PortfolioCore.__init__ (lit "main") (lit "u1") in
    let p1 := (PortfolioCore.add_position symbol (PyFloat shares) (PyFloat price) p0).2 in
    (PortfolioCore.get_total_value p1).1 = PyNone
    ∧ (PortfolioCore.get_total_value p1).1 ≠ PyFloat (shares * price).
Proof. intros; split; [reflexivity | discriminate]. Qed.

(* --------------------------------------------------------------------- *)
(* Strings and sums                                                       *)
(* --------------------------------------------------------------------- *)

Lemma startswith_spec (t w : str) :
  startswith t w = true ↔ ∃ suf, t = w ++ suf.
Proof.
  revert t; induction w as [|a w IH]; intros t; simpl.
  - split; [intros _; by exists t | done].
  - destruct t as [|b t].
    + split; [done | intros [suf Hsuf]; discriminate].
    + rewrite andb_true_iff, N.eqb_eq, IH. split.
      * intros [-> [suf ->]]. by exists suf.
      * intros [suf Hsuf]. injection Hsuf as -> ->. eauto.
Qed.

Lemma contains_spec (t w : str) :
  contains t w = true ↔ ∃ pre suf, t = pre ++ w ++ suf.
Proof.
  induction t as [|b t IH].
  - simpl. rewrite orb_false_r, startswith_spec. split.
    + intros [suf ->]. by exists [], suf.
    + intros [pre [suf Heq]]. symmetry in Heq.
      apply app_eq_nil in Heq as [-> Heq]. exists suf. by rewrite Heq.
  - cbn [contains]. rewrite orb_true_iff, startswith_spec, IH. split.
    + intros [[suf ->] | [pre [suf ->]]].
      * by exists [], suf.
      * by exists (b :: pre), suf.
    + intros [[|c pre] [suf Heq]].
      * left. by exists suf.
      * right. injection Heq as -> ->. by exists pre, suf.
Qed.

Lemma occurrences_nonneg (t w : str) : 0 ≤ occurrences t w.
Proof.
  induction t as [|b t IH]; cbn [occurrences]; destruct (startswith _ w); lia.
Qed.

Lemma occurrences_pos (t w : str) :
  0 < occurrences t w ↔ contains t w = true.
Proof.
  induction t as [|b t IH]; cbn [occurrences contains].
  - destruct (startswith [] w); simpl; split; (lia || done).
  - pose proof (occurrences_nonneg t w).
    destruct (startswith (b :: t) w); simpl; [split; [done | lia] |].
    rewrite <- IH. split; lia.
Qed.

Lemma foldl_add (a : Z) (xs : list Z) : foldl Z.add a xs = a + sum xs.
Proof.
  unfold sum. revert a; induction xs as [|x xs IH]; intros a; simpl; [lia |].
  rewrite (IH (a + x)), (IH (0 + x)). lia.
Qed.

Lemma sum_cons (x : Z) (xs : list Z) : sum (x :: xs) = x + sum xs.
Proof. unfold sum at 1. simpl. apply foldl_add. Qed.

Lemma sum_ones {A} (l : list A) : sum ((λ _, 1) <$> l) = Z.of_nat (length l).
Proof.
  induction l as [|x l IH]; [done |].
  rewrite fmap_cons, sum_cons, IH. simpl length. lia.
Qed.

(** Every listed word counts once when it occurs in the text, however
    often it does, and not at all when it does not. *)
Lemma count_words_occurrences (words : list str) (t : str) :
  GoogleNews.count_words words t
  = sum ((λ w, Z.min 1 (occurrences t w)) <$> words).
Proof.
  unfold GoogleNews.count_words.
  induction words as [|w words IH]; [done |].
  rewrite fmap_cons, sum_cons, <- IH, filter_cons.
  pose proof (occurrences_pos t w) as Hpos.
  pose proof (occurrences_nonneg t w) as Hnn.
  destruct (decide (contains t w = true)) as [Hc | Hc].
  - rewrite fmap_cons, sum_cons. apply Hpos in Hc. lia.
  - assert (occurrences t w = 0) as -> by (destruct (contains t w); [done | ]; 
      destruct (decide (0 < occurrences t w)) as [Hlt|]; [apply Hpos in Hlt; done | lia]).
    lia.
Qed.

(** The count depends on the text only through which of the words occur
    in it. *)
Lemma count_words_presence (words : list str) (t1 t2 : str) :
  (∀ word, word ∈ words → contains t1 word = contains t2 word) →
  GoogleNews.count_words words t1 = GoogleNews.count_words words t2.
Proof.
  unfold GoogleNews.count_words. intros Hsame. do 2 f_equal.
  induction words as [|w words IH]; [done |].
  rewrite !filter_cons, (Hsame w) by (by left).
  rewrite IH by (intros word Hword; apply Hsame; by right).
  reflexivity.
Qed.

Lemma count_words_bounds (words : list str) (t : str) :
  0 ≤ GoogleNews.count_words words t ≤ Z.of_nat (length words).
Proof.
  unfold GoogleNews.count_words. rewrite sum_ones.
  pose proof (length_filter (λ word, contains t word = true) words). lia.
Qed.

(** [round3 x] is a multiple of 1/1000 at a distance of at most 1/2000
    from [x]. *)
Lemma round3_nearest (x : Q) :
  (∃ k : Z, round3 x = k # 1000) ∧ (Qabs (round3 x - x) <= 1 # 2000)%Q.
Proof.
  split; [unfold round3; eauto |].
  destruct x as [n d]. unfold round3. cbn [Qnum Qden].
  pose proof (Z.div_mod (n * 1000) (Z.pos d) ltac:(lia)) as Hdm.
  pose proof (Z.mod_pos_bound (n * 1000) (Z.pos d) ltac:(lia)) as Hr.
  set (k := n * 1000 / Z.pos d) in *.
  set (r := (n * 1000) mod Z.pos d) in *.
  apply Qabs_Qle_condition.
  destruct (Z.compare_spec (2 * r) (Z.pos d)) as [Heq | Hlt | Hgt];
    [destruct (Z.even k) |..];
    unfold Qle, Qminus, Qplus, Qopp; cbn [Qnum Qden]; split; nia.
Qed.

(** With both counts between 0 and 15, the quotient of the winning count
    by p + n + 1 lies half-way between two multiples of 1/1000 only when
    p + n + 1 = 16; a sixteenth is a double, so that the tie is rounded
    on the exact value there. *)
Lemma rounding_ties_are_sixteenths (p n : Z) :
  0 ≤ n → n < p → p ≤ 15 →
  2 * ((p * 1000) mod (p + n + 1)) = p + n + 1 → p + n + 1 = 16.
Proof.
  intros Hn Hnp Hp.
  assert (forallb (λ p, forallb (λ n,
            implb (n <? p)
              (implb (2 * ((p * 1000) mod (p + n + 1)) =? p + n + 1)
                     (p + n + 1 =? 16)))
            (seqZ 0 16)) (seqZ 0 16) = true) as Hall by (vm_compute; reflexivity).
  rewrite forallb_forall in Hall.
  specialize (Hall p ltac:(apply list_elem_of_In, elem_of_seqZ; lia)).
  rewrite forallb_forall in Hall.
  specialize (Hall n ltac:(apply list_elem_of_In, elem_of_seqZ; lia)).
  intros Htie.
  rewrite (proj2 (Z.ltb_lt n p) Hnp), (proj2 (Z.eqb_eq _ _) Htie) in Hall.
  simpl in Hall. by apply Z.eqb_eq.
Qed.

(* --------------------------------------------------------------------- *)
(* The sentiment scorer                                                   *)
(* --------------------------------------------------------------------- *)

Section Sentiment.
Import GoogleNews.
Context `{Platform}.

(** C1, as amended: for every text, [analyze_sentiment] labels it
    positive when more positive than negative words are counted, negative
    when more negative than positive ones, neutral when the counts are
    equal; the score is the winning count divided by
    positive_count + negative_count + 1 and then rounded to three
    decimals, and 0.5 for a neutral text. *)
Theorem analyze_sentiment_rounded_score (self : GoogleNewsSandbox) (text : str) :
  let r := analyze_sentiment self text in
  let p := positive_hits r in
  let n := negative_hits r in
  (p > n → sentiment r = lit "positive"
           ∧ score r = round3 (inject_Z p / inject_Z (p + n + 1)))
  ∧ (n > p → sentiment r = lit "negative"
             ∧ score r = round3 (inject_Z n / inject_Z (p + n + 1)))
  ∧ (p = n → sentiment r = lit "neutral" ∧ (score r == 1 # 2)%Q).
Proof.
  unfold analyze_sentiment.
  set (p := count_words positive_words (lower text)).
  set (n := count_words negative_words (lower text)).
  destruct (bool_decide (p > n)) eqn:Hpn;
    [apply bool_decide_eq_true in Hpn | apply bool_decide_eq_false in Hpn];
    [| destruct (bool_decide (n > p)) eqn:Hnp;
       [apply bool_decide_eq_true in Hnp | apply bool_decide_eq_false in Hnp]];
    cbn [sentiment score positive_hits negative_hits];
    repeat split; try done; lia.
Qed.

(** C2, as amended: the positive and the negative count are the number of
    words of the positive and of the negative list that occur in the
    lower-cased text as a substring; a listed word that occurs k >= 1
    times contributes 1, not k. *)
Theorem counts_are_listed_words_present (self : GoogleNewsSandbox) (text : str) :
  let r := analyze_sentiment self text in
  let t := lower text in
  positive_hits r = sum ((λ w, Z.min 1 (occurrences t w)) <$> positive_words)
  ∧ negative_hits r = sum ((λ w, Z.min 1 (occurrences t w)) <$> negative_words)
  ∧ (∀ w, 0 < occurrences t w ↔ ∃ pre suf, t = pre ++ w ++ suf).
Proof.
  cbn zeta. unfold analyze_sentiment.
  set (p := count_words positive_words (lower text)).
  set (n := count_words negative_words (lower text)).
  assert (∀ w, 0 < occurrences (lower text) w
               ↔ ∃ pre suf, lower text = pre ++ w ++ suf) as Hocc
    by (intros w; rewrite occurrences_pos; apply contains_spec).
  destruct (bool_decide (p > n)); [| destruct (bool_decide (n > p))];
    cbn [positive_hits negative_hits];
    (split; [apply count_words_occurrences |
             split; [apply count_words_occurrences | exact Hocc]]).
Qed.

(** C8: two calls of [analyze_sentiment] on the same text give the same
    label and the same score, on whichever sandbox objects they are made.
    The method reads nothing of its object, and of the text it uses only
    which of the thirty listed words occur in its lower-cased form: two
    calls whose texts agree on that, as two calls on the same text do,
    give the same label, score and counts. *)
Theorem analyze_sentiment_deterministic (self1 self2 : GoogleNewsSandbox)
    (text1 text2 : str) :
  (∀ word, word ∈ positive_words ++ negative_words →
           contains (lower text1) word = contains (lower text2) word) →
  analyze_sentiment self1 text1 = analyze_sentiment self2 text2
  ∧ sentiment (analyze_sentiment self1 text1)
    = sentiment (analyze_sentiment self2 text2)
  ∧ score (analyze_sentiment self1 text1) = score (analyze_sentiment self2 text2).
Proof.
  intros Hsame.
  assert (analyze_sentiment self1 text1 = analyze_sentiment self2 text2) as Heq.
  { unfold analyze_sentiment.
    rewrite (count_words_presence positive_words (lower text1) (lower text2))
      by (intros word Hword; apply Hsame, elem_of_app; by left).
    rewrite (count_words_presence negative_words (lower text1) (lower text2))
      by (intros word Hword; apply Hsame, elem_of_app; by right).
    reflexivity. }
  by rewrite Heq.
Qed.

End Sentiment.

(** C1, a text on which the claim fails: in "up gain" two positive and no
    negative words are counted, and the score is 0.667, not 2/3. *)
Lemma analyze_sentiment_score_not_quotient :
  let r := GoogleNews.analyze_sentiment (H := GoogleNews.table_platform)
             GoogleNews.__init__ (lit "up gain") in
  let p := GoogleNews.positive_hits r in
  let n := GoogleNews.negative_hits r in
  p = 2 ∧ n = 0 ∧ p > n
  ∧ (GoogleNews.score r == 667 # 1000)%Q
  ∧ ¬ (GoogleNews.score r == inject_Z p / inject_Z (p + n + 1))%Q.
Proof. vm_compute. repeat split; discriminate. Qed.

Lemma analyze_sentiment_rounded_score_witness :
  let r := GoogleNews.analyze_sentiment (H := GoogleNews.table_platform)
             GoogleNews.__init__ (lit "up gain") in
  GoogleNews.sentiment r = lit "positive"
  ∧ GoogleNews.score r = round3 (inject_Z 2 / inject_Z (2 + 0 + 1)).
Proof.
  exact (proj1 (analyze_sentiment_rounded_score
                  (H := GoogleNews.table_platform)
                  GoogleNews.__init__ (lit "up gain"))
               ltac:(vm_compute; reflexivity)).
Defined.

(** C2, a text on which the claim fails: "up" occurs twice in "up up",
    and the positive count is 1. *)
Lemma repeated_word_counts_once :
  let r := GoogleNews.analyze_sentiment (H := GoogleNews.table_platform)
             GoogleNews.__init__ (lit "up up") in
  let t := ascii_lower (lit "up up") in
  occurrences t (lit "up") = 2
  ∧ GoogleNews.positive_hits r = 1
  ∧ sum (occurrences t <$> GoogleNews.positive_words) = 2
  ∧ GoogleNews.positive_hits r ≠ sum (occurrences t <$> GoogleNews.positive_words).
Proof. vm_compute. repeat split; discriminate. Qed.

Lemma analyze_sentiment_deterministic_witness :
  GoogleNews.analyze_sentiment (H := GoogleNews.table_platform)
    GoogleNews.__init__ (lit "Markets UP")
  = GoogleNews.analyze_sentiment (H := GoogleNews.table_platform)
      {| GoogleNews.base_url := lit "https://example.org";
         GoogleNews.headers := [];
         GoogleNews.session := GoogleNews.new_session [] |} (lit "up").
Proof.
  apply (analyze_sentiment_deterministic (H := GoogleNews.table_platform)).
  intros word Hword. apply list_elem_of_In in Hword.
  vm_compute in Hword.
  repeat (destruct Hword as [<- | Hword]; [vm_compute; reflexivity |]).
  destruct Hword.
Defined.

Lemma counts_are_listed_words_present_witness :
  GoogleNews.positive_hits
    (GoogleNews.analyze_sentiment (H := GoogleNews.table_platform)
       GoogleNews.__init__ (lit "up up")) = 1.
Proof.
  rewrite (proj1 (counts_are_listed_words_present
                    (H := GoogleNews.table_platform)
                    GoogleNews.__init__ (lit "up up"))).
  vm_compute. reflexivity.
Defined.

(* --------------------------------------------------------------------- *)
(* News aggregation                                                       *)
(* --------------------------------------------------------------------- *)

Section Aggregation.
Import GoogleNews.
Context `{Platform}.

(** What the deduplication loop adds to [unique_articles]: of the
    articles whose title is not yet in [seen_titles], the first one for
    each title, in the order of the input. *)
Lemma remove_duplicates_spec (all_articles : list Article)
    (seen_titles : gset str) (unique_articles : list Article) :
  ∃ kept,
    remove_duplicates all_articles seen_titles unique_articles
      = unique_articles ++ kept
    ∧ kept `sublist_of` all_articles
    ∧ NoDup (title <$> kept)
    ∧ (∀ a, a ∈ kept → title a ∉ seen_titles)
    ∧ (∀ a, a ∈ all_articles →
            title a ∈ seen_titles ∨ title a ∈ title <$> kept).
Proof.
  revert seen_titles unique_articles.
  induction all_articles as [|article rest IH]; intros seen unique.
  - exists []. simpl. rewrite app_nil_r.
    repeat split; [constructor | constructor | set_solver | set_solver].
  - cbn [remove_duplicates].
    destruct (decide (title article ∉ seen)) as [Hnew | Hold].
    + destruct (IH ({[title article]} ∪ seen) (unique ++ [article]))
        as (kept & -> & Hsub & Hnd & Hfresh & Hcov).
      exists (article :: kept). rewrite <- app_assoc. simpl.
      repeat split.
      * by constructor.
      * constructor; [| done].
        intros (b & Hb & Hin)%list_elem_of_fmap.
        apply Hfresh in Hin. set_solver.
      * intros a [-> | Hin]%elem_of_cons; [done |].
        apply Hfresh in Hin. set_solver.
      * intros a [-> | Hin]%elem_of_cons; [set_solver |].
        destruct (Hcov a Hin) as [Hs | Hk].
        -- apply elem_of_union in Hs as [Hs | Hs]; [| by left].
           apply elem_of_singleton in Hs as ->. right. apply elem_of_cons. by left.
        -- right. apply elem_of_cons. by right.
    + destruct (IH seen unique) as (kept & -> & Hsub & Hnd & Hfresh & Hcov).
      exists kept. repeat split; [by constructor | done | done |].
      intros a [-> | Hin]%elem_of_cons; [| by apply Hcov].
      left. by destruct (decide (title article ∈ seen)).
Qed.

Lemma remove_duplicates_first (pre rest : list Article) (a : Article)
    (seen_titles : gset str) (unique_articles : list Article) :
  title a ∉ seen_titles →
  title a ∉ title <$> pre →
  a ∈ remove_duplicates (pre ++ a :: rest) seen_titles unique_articles.
Proof.
  revert seen_titles unique_articles.
  induction pre as [|b pre IH]; intros seen unique Hseen Hpre.
  - cbn [app remove_duplicates].
    destruct (decide (title a ∉ seen)) as [_ |]; [| done].
    destruct (remove_duplicates_spec rest ({[title a]} ∪ seen) (unique ++ [a]))
      as (kept & -> & _).
    apply elem_of_app. left. apply elem_of_app. right. by left.
  - rewrite fmap_cons in Hpre. apply not_elem_of_cons in Hpre as [Hne Hpre].
    cbn [app remove_duplicates].
    destruct (decide (title b ∉ seen)); apply IH; try done.
    apply not_elem_of_union. split; [| done].
    by apply not_elem_of_singleton.
Qed.


Lemma parse_loop_length (self : GoogleNewsSandbox) (query : str)
    (article_elements : list element) (articles : list Article) (w : World Net) :
  (length (parse_loop self query article_elements articles w).1
   ≤ length articles + length article_elements)%nat.
Proof.
  revert articles w.
  induction article_elements as [|article rest IH]; intros articles w.
  - simpl. lia.
  - cbn [parse_loop]. destruct (parse_article self query article) as [a | e].
    + etrans; [apply IH |]. rewrite length_app. simpl. lia.
    + unfold mbind, state_bind. simpl. etrans; [apply IH |]. simpl. lia.
Qed.

(** What leaves [search_news]: a list of at most 10 articles, or an
    exception that is no [Exception]. *)
Lemma search_news_outcome (self : GoogleNewsSandbox) (query : str) (days : Z)
    (w : World Net) :
  match (search_news self query days w).1 with
  | Return articles => (length articles ≤ 10)%nat
  | Raise e => is_Exception e = false
  end.
Proof.
  unfold search_news, mbind, state_bind, mret, state_ret, print, external.
  cbn [stdout net].
  destruct (fetch_articles _ _ _ _) as [[article_elements | e] n].
  - match goal with |- context [parse_loop ?s ?q ?l ?a ?w0] =>
      pose proof (parse_loop_length s q l a w0) as Hlen;
      destruct (parse_loop s q l a w0) as [articles w'] end.
    simpl in *. rewrite length_take in Hlen. lia.
  - destruct (is_Exception e) eqn:He; simpl; [lia | done].
Qed.

(** One turn of the loop over the queries. *)
Lemma fetch_loop_cons (self : GoogleNewsSandbox) (days : Z) (query : str)
    (rest : list str) (all_articles : list Article) (w : World Net) :
  fetch_loop self days (query :: rest) all_articles w
  = match search_news self query days w with
    | (Return articles, w') => fetch_loop self days rest (all_articles ++ articles) w'
    | (Raise e, w') => (Raise e, w')
    end.
Proof.
  cbn [fetch_loop]. unfold mbind, state_bind, mret, state_ret, sleep.
  by destruct (search_news self query days w) as [[articles | e] w'].
Qed.

Lemma fetch_loop_outcome (self : GoogleNewsSandbox) (days : Z)
    (queries : list str) (all_articles : list Article) (w : World Net) :
  ∀ e, (fetch_loop self days queries all_articles w).1 = Raise e →
       is_Exception e = false.
Proof.
  revert all_articles w.
  induction queries as [|query rest IH]; intros all_articles w e; [done |].
  rewrite fetch_loop_cons.
  pose proof (search_news_outcome self query days w) as Hsearch.
  destruct (search_news self query days w) as [[articles | e'] w']; simpl in *.
  - apply IH.
  - by intros [= <-].
Qed.

(** [get_stock_news] in terms of its loop over the queries. *)
Lemma get_stock_news_result (self : GoogleNewsSandbox) (symbol company_name : str)
    (days : Z) (w : World Net) :
  get_stock_news self symbol company_name days w
  = match fetch_loop self days
            (if bool_decide (company_name ≠ [])
             then [symbol; company_name; symbol ++ lit " " ++ company_name]
             else [symbol]) [] w with
    | (Return all_articles, w') =>
        (Return (take 15 (remove_duplicates all_articles ∅ [])), w')
    | (Raise e, w') => (Raise e, w')
    end.
Proof.
  unfold get_stock_news, mbind, state_bind, mret, state_ret.
  destruct (bool_decide (company_name ≠ [])); cbn [app];
    match goal with |- context [fetch_loop ?s ?d ?q ?a ?w0] =>
      by destruct (fetch_loop s d q a w0) as [[all_articles | e] w'] end.
Qed.


(** C9: whatever the network answers, a list that [search_news] returns
    has at most 10 articles and a list that [get_stock_news] returns has
    at most 15; neither of the two lets an [Exception] reach its caller
    in place of a list. *)
Theorem result_size_caps (self : GoogleNewsSandbox) (query symbol company_name : str)
    (days : Z) (w : World Net) :
  match (search_news self query days w).1 with
  | Return articles => (length articles ≤ 10)%nat
  | Raise e => is_Exception e = false
  end
  ∧ match (get_stock_news self symbol company_name days w).1 with
    | Return articles => (length articles ≤ 15)%nat
    | Raise e => is_Exception e = false
    end.
Proof.
  split; [apply search_news_outcome |].
  rewrite get_stock_news_result.
  match goal with |- context [fetch_loop ?s ?d ?q ?a ?w0] =>
    pose proof (fetch_loop_outcome s d q a w0) as Hraise;
    destruct (fetch_loop s d q a w0) as [[all_articles | e] w'] end;
    simpl in *; [| by apply Hraise].
  rewrite length_take. lia.
Qed.

End Aggregation.


(* --------------------------------------------------------------------- *)
(* Failing external calls                                                 *)
(* --------------------------------------------------------------------- *)

(** C7, a call on which the claim fails: when the library call under
    [NewsAPIClient.get_top_headlines] raises, the method prints nothing
    and returns nothing; it raises an [Exception] of its own to its
    caller. *)
Lemma get_top_headlines_raises_to_caller :
  let e := Exn (lit "ConnectionError") (lit "unreachable") in
  let w := {| stdout := []; net := () |} in
  let r := NewsClient.get_top_headlines (H := NewsClient.failing_api e)
             {| NewsClient.client := lit "key" |} [] w in
  r.1 = Raise (Exception (lit "Error fetching top headlines: unreachable"))
  ∧ returns r.1 = false
  ∧ stdout r.2 = [].
Proof. vm_compute. repeat split. Qed.

(** C7, as amended: when its external call raises an exception [e] that
    is an [Exception], each of [search_news] (Google News),
    [get_stock_info] (Yahoo Finance), [get_bart_summary],
    [get_financial_sentiment] and [get_llama_completion] (inference
    scripts) prints one line about the error and returns its empty value:
    the empty list, the empty dict, [None].  The three methods of the
    NewsAPI client do not: they print nothing and raise [Exception] with
    the message of [e] behind a fixed prefix.  An [e] that is no
    [Exception], such as [KeyboardInterrupt], is not handled by any of
    them: it reaches the caller as it is and no line about it is
    printed. *)
Theorem external_call_failure_handling
    (P : GoogleNews.Platform) (A : NewsClient.Api)
    (I : Inference.Hub) (Y : YahooFinance.Yahoo) :
  (∀ (self : GoogleNews.GoogleNewsSandbox) (query : str) (days : Z)
     (w : World GoogleNews.Net) (e : exn) (n : GoogleNews.Net),
     GoogleNews.fetch_articles (GoogleNews.session self)
       (GoogleNews.search_url self query) 10 (net w) = (Raise e, n) →
     GoogleNews.search_news self query days w
     = if is_Exception e then
         (Return [],
          {| stdout := stdout w
               ++ [[128269]%N ++ lit " Searching for: " ++ query;
                   [10060]%N ++ lit " Error searching news for '" ++ query
                             ++ lit "': " ++ exn_msg e];
             net := n |})
       else
         (Raise e,
          {| stdout := stdout w ++ [[128269]%N ++ lit " Searching for: " ++ query];
             net := n |}))
  ∧ (∀ (symbol : str) (w : World YahooFinance.Net) (e : exn) (n : YahooFinance.Net),
       YahooFinance.ticker_info symbol (net w) = (Raise e, n) →
       YahooFinance.get_stock_info symbol w
       = if is_Exception e then
           (Return [],
            {| stdout := stdout w
                 ++ [[10060]%N ++ lit " Error getting info for " ++ symbol
                               ++ lit ": " ++ exn_msg e];
               net := n |})
         else (Raise e, {| stdout := stdout w; net := n |}))
  ∧ (∀ (environ : gmap str str) (token text : str) (w : World Inference.Net)
       (e : exn) (n : Inference.Net),
       environ !! lit "HUGGINGFACE_TOKEN" = Some token →
       Inference.summarization (lit "facebook/bart-large-cnn") token
         (lit "summarize: " ++ text) (net w) = (Raise e, n) →
       Inference.get_bart_summary environ text w
       = if is_Exception e then
           (Return PyNone,
            {| stdout := stdout w
                 ++ [lit "Error making summarization request: " ++ exn_msg e];
               net := n |})
         else (Raise e, {| stdout := stdout w; net := n |}))
  ∧ (∀ (environ : gmap str str) (token text : str) (w : World Inference.Net)
       (e : exn) (n : Inference.Net),
       environ !! lit "HUGGINGFACE_TOKEN" = Some token →
       Inference.text_classification
         (lit "mrm8488/distilroberta-finetuned-financial-news-sentiment-analysis")
         token (lit "summarize: " ++ text) (net w) = (Raise e, n) →
       Inference.get_financial_sentiment environ text w
       = if is_Exception e then
           (Return PyNone,
            {| stdout := stdout w
                 ++ [lit "Error making summarization request: " ++ exn_msg e];
               net := n |})
         else (Raise e, {| stdout := stdout w; net := n |}))
  ∧ (∀ (environ : gmap str str) (api_key prompt system_message : str)
       (w : World Inference.Net) (e : exn) (n : Inference.Net),
       environ !! lit "HUGGINGFACE_TOKEN" = Some api_key →
       Inference.chat_completion api_key (lit "meta-llama/Llama-3.3-70B-Instruct")
         [(lit "system", system_message); (lit "user", prompt)] (net w)
         = (Raise e, n) →
       Inference.get_llama_completion environ prompt system_message w
       = if is_Exception e then
           (Return PyNone,
            {| stdout := stdout w
                 ++ [if bool_decide (exn_class e = lit "KeyError")
                     then [10060]%N ++ lit " Error: HUGGINGFACE_TOKEN environment variable not found"
                     else [10060]%N ++ lit " Error making inference request: "
                                    ++ exn_msg e];
               net := n |})
         else (Raise e, {| stdout := stdout w; net := n |}))
  ∧ (∀ (self : NewsClient.NewsAPIClient) (kwargs args : list (str * pyval))
       (w : World NewsClient.Net) (e : exn) (n : NewsClient.Net),
       NewsClient.bind_keywords (lit "NewsAPIClient.get_top_headlines")
         NewsClient.top_headlines_signature kwargs = Return args →
       NewsClient.api_get_top_headlines (NewsClient.client self) args (net w)
         = (Raise e, n) →
       NewsClient.get_top_headlines self kwargs w
       = (Raise (if is_Exception e
                 then Exception (lit "Error fetching top headlines: " ++ exn_msg e)
                 else e),
          {| stdout := stdout w; net := n |}))
  ∧ (∀ (self : NewsClient.NewsAPIClient) (kwargs args : list (str * pyval))
       (w : World NewsClient.Net) (e : exn) (n : NewsClient.Net),
       NewsClient.bind_keywords (lit "NewsAPIClient.get_everything")
         NewsClient.everything_signature kwargs = Return args →
       NewsClient.api_get_everything (NewsClient.client self)
         ((λ p : str * pyval,
             if bool_decide (p.1 = lit "from_param" ∨ p.1 = lit "to")
             then (p.1, NewsClient.date_to_string p.2) else p) <$> args) (net w)
         = (Raise e, n) →
       NewsClient.get_everything self kwargs w
       = (Raise (if is_Exception e
                 then Exception (lit "Error fetching articles: " ++ exn_msg e)
                 else e),
          {| stdout := stdout w; net := n |}))
  ∧ (∀ (self : NewsClient.NewsAPIClient) (kwargs args : list (str * pyval))
       (w : World NewsClient.Net) (e : exn) (n : NewsClient.Net),
       NewsClient.bind_keywords (lit "NewsAPIClient.get_sources")
         NewsClient.sources_signature kwargs = Return args →
       NewsClient.api_get_sources (NewsClient.client self) args (net w)
         = (Raise e, n) →
       NewsClient.get_sources self kwargs w
       = (Raise (if is_Exception e
                 then Exception (lit "Error fetching sources: " ++ exn_msg e)
                 else e),
          {| stdout := stdout w; net := n |})).
Proof.
  repeat split.
  - intros self query days w e n Hfetch.
    unfold GoogleNews.search_news,
      mbind, state_bind, mret, state_ret, print, external.
    cbn [stdout net]. rewrite Hfetch.
    destruct (is_Exception e); cbn [stdout net]; [| done].
    by rewrite <- app_assoc.
  - intros symbol w e n Hcall.
    unfold YahooFinance.get_stock_info, try_except,
      mbind, state_bind, mret, state_ret, print, external.
    rewrite Hcall. cbn [result_bind]. by destruct (is_Exception e).
  - intros environ token text w e n Henv Hcall.
    unfold Inference.get_bart_summary, try_except, environ_getitem.
    rewrite Henv. unfold mbind, state_bind, mret, state_ret, print, external.
    rewrite Hcall. by destruct (is_Exception e).
  - intros environ token text w e n Henv Hcall.
    unfold Inference.get_financial_sentiment, try_except, environ_getitem.
    rewrite Henv. unfold mbind, state_bind, mret, state_ret, print, external.
    rewrite Hcall. by destruct (is_Exception e).
  - intros environ api_key prompt system_message w e n Henv Hcall.
    unfold Inference.get_llama_completion, try_except, environ_getitem.
    rewrite Henv. unfold mbind, state_bind, mret, state_ret, print, external.
    rewrite Hcall. cbn [result_bind].
    destruct (is_Exception e); [| done].
    by destruct (bool_decide (exn_class e = lit "KeyError")).
  - intros self kwargs args w e n Hbind Hcall.
    unfold NewsClient.get_top_headlines. rewrite Hbind.
    unfold mbind at 1, state_bind, mret, state_ret, external.
    rewrite Hcall. cbn [mbind result_bind NewsClient.reraise].
    by destruct (is_Exception e).
  - intros self kwargs args w e n Hbind Hcall.
    unfold NewsClient.get_everything. rewrite Hbind.
    unfold mbind at 1, state_bind, mret, state_ret, external.
    rewrite Hcall. cbn [mbind result_bind NewsClient.reraise].
    by destruct (is_Exception e).
  - intros self kwargs args w e n Hbind Hcall.
    unfold NewsClient.get_sources. rewrite Hbind.
    unfold mbind at 1, state_bind, mret, state_ret, external.
    rewrite Hcall. cbn [NewsClient.reraise].
    by destruct (is_Exception e).
Qed.

Lemma external_call_failure_handling_witness :
  let e := Exn (lit "ConnectionError") (lit "unreachable") in
  (GoogleNews.search_news (H := GoogleNews.table_platform)
     GoogleNews.__init__ (lit "AAPL") 7 {| stdout := []; net := [] |}).1
  = Return []
  ∧ (YahooFinance.get_stock_info (H := YahooFinance.constant_yahoo (Raise e))
       (lit "AAPL") {| stdout := []; net := () |}).1 = Return []
  ∧ (Inference.get_llama_completion (H := Inference.failing_hub e)
       {[ lit "HUGGINGFACE_TOKEN" := lit "t" ]} (lit "hello") (lit "be brief")
       {| stdout := []; net := () |}).1 = Return PyNone
  ∧ (NewsClient.get_top_headlines (H := NewsClient.failing_api e)
       {| NewsClient.client := lit "key" |} [] {| stdout := []; net := () |}).1
    = Raise (Exception (lit "Error fetching top headlines: unreachable")).
Proof.
  intros e.
  destruct (external_call_failure_handling GoogleNews.table_platform
              (NewsClient.failing_api e) (Inference.failing_hub e)
              (YahooFinance.constant_yahoo (Raise e)))
    as (Hsearch & Hinfo & _ & _ & Hllama & Hheadlines & _).
  assert (({[ lit "HUGGINGFACE_TOKEN" := lit "t" ]} : gmap str str)
            !! lit "HUGGINGFACE_TOKEN" = Some (lit "t")) as Henv
    by (vm_compute; reflexivity).
  split; [| split; [| split]].
  - rewrite (Hsearch GoogleNews.__init__ (lit "AAPL") 7 {| stdout := []; net := [] |}
               (Exception (lit "404 Client Error")) []); reflexivity.
  - rewrite (Hinfo (lit "AAPL") {| stdout := []; net := () |} e ()); reflexivity.
  - rewrite (Hllama _ (lit "t") (lit "hello") (lit "be brief")
               {| stdout := []; net := () |} e () Henv); reflexivity.
  - rewrite (Hheadlines {| NewsClient.client := lit "key" |} []
               NewsClient.top_headlines_signature {| stdout := []; net := () |}
               e ()); reflexivity.
Defined.

(* --------------------------------------------------------------------- *)
(* The convenience function of the NewsAPI client                         *)
(* --------------------------------------------------------------------- *)

(** C10, a call on which the claim fails: in a process without
    [API_NEWS_KEY], [get_news("top_headlines")] raises [ValueError] while
    the client is built; it is not a call of [get_top_headlines], whose
    result on the same library is a response. *)
Lemma get_news_without_key_raises :
  let w := {| stdout := []; net := () |} in
  let r := NewsClient.get_news (H := NewsClient.empty_api) ∅
             (lit "top_headlines") [] w in
  r.1 = Raise (ValueError (lit "API key not found. Set API_NEWS_KEY environment variable or pass api_key parameter."))
  ∧ ∀ self, returns (NewsClient.get_top_headlines (H := NewsClient.empty_api)
                       self [] w).1 = true
            ∧ NewsClient.get_top_headlines (H := NewsClient.empty_api) self [] w ≠ r.
Proof. vm_compute. split; [reflexivity | intros self; split; [reflexivity | discriminate]]. Qed.

Section GetNews.
Import NewsClient.
Context `{Api}.

(** C10, as amended: [get_news] raises [ValueError] for every endpoint
    other than 'top_headlines' and 'everything'; in a process whose
    environment gives [API_NEWS_KEY] a non-empty value it is, for
    'top_headlines', the call of [get_top_headlines] and, for
    'everything', the call of [get_everything] on a client with that key,
    with the same keyword arguments; without such a value it raises
    [ValueError] for every endpoint. *)
Theorem get_news_dispatch (environ : gmap str str) (endpoint : str)
    (kwargs : list (str * pyval)) (w : World Net) :
  (endpoint ≠ lit "top_headlines" → endpoint ≠ lit "everything" →
   ∃ msg, get_news environ endpoint kwargs w = (Raise (ValueError msg), w))
  ∧ (∀ key, getenv environ (lit "API_NEWS_KEY") = Some key → key ≠ [] →
       get_news environ (lit "top_headlines") kwargs w
       = get_top_headlines {| client := key |} kwargs w
       ∧ get_news environ (lit "everything") kwargs w
         = get_everything {| client := key |} kwargs w)
  ∧ (getenv environ (lit "API_NEWS_KEY") = None
     ∨ getenv environ (lit "API_NEWS_KEY") = Some [] →
     ∃ msg, get_news environ endpoint kwargs w = (Raise (ValueError msg), w)).
Proof.
  unfold get_news, __init__.
  split; [| split].
  - intros Hth Hev.
    destruct (getenv environ (lit "API_NEWS_KEY")) as [key |]; [| by eexists].
    destruct (bool_decide (key ≠ [])); [| by eexists].
    rewrite !bool_decide_eq_false_2 by done. by eexists.
  - intros key -> Hkey. rewrite (bool_decide_eq_true_2 _ Hkey).
    split; [by rewrite bool_decide_eq_true_2 |].
    rewrite bool_decide_eq_false_2 by discriminate.
    by rewrite bool_decide_eq_true_2.
  - intros [-> | ->]; [by eexists |].
    rewrite bool_decide_eq_false_2 by (intros Hne; by apply Hne). by eexists.
Qed.

End GetNews.

Lemma get_news_dispatch_witness :
  let environ : gmap str str := {[ lit "API_NEWS_KEY" := lit "k" ]} in
  let w := {| stdout := []; net := () |} in
  (∃ msg, NewsClient.get_news (H := NewsClient.empty_api) environ (lit "sources") [] w
          = (Raise (ValueError msg), w))
  ∧ NewsClient.get_news (H := NewsClient.empty_api) environ (lit "top_headlines") [] w
    = NewsClient.get_top_headlines (H := NewsClient.empty_api)
        {| NewsClient.client := lit "k" |} [] w.
Proof.
  intros environ w.
  destruct (get_news_dispatch (H := NewsClient.empty_api) environ (lit "sources") [] w)
    as (Hother & Hkey & _).
  split.
  - apply Hother; discriminate.
  - apply (Hkey (lit "k")); [reflexivity | discriminate].
Defined.

(* ===================================================================== *)
(* Further properties of the code                                         *)
(* ===================================================================== *)

(* --------------------------------------------------------------------- *)
(* Scraping one results page                                              *)
(* --------------------------------------------------------------------- *)

Section Scraping.
Import GoogleNews.
Context `{Platform}.

Lemma parse_article_outcome (self : GoogleNewsSandbox) (q : str) (el : element) :
  match read_error el with
  | Some e => parse_article self q el = Raise e
  | None => ∃ a, parse_article self q el = Return a ∧ query a = q
  end.
Proof.
  unfold parse_article. destruct (read_error el) as [e |]; [done |].
  eexists. split; [reflexivity | done].
Qed.

(** The parsing loop appends one article for every element that can be
    read and prints one line for every element that cannot; it leaves the
    network alone. *)
Lemma parse_loop_accounts (self : GoogleNewsSandbox) (q : str)
    (els : list element) (acc : list Article) (w : World Net) :
  let r := parse_loop self q els acc w in
  length r.1 = (length acc + length (filter (λ el, read_error el = None) els))%nat
  ∧ length (stdout r.2)
    = (length (stdout w) + length (filter (λ el, is_Some (read_error el)) els))%nat
  ∧ net r.2 = net w
  ∧ ((∀ a, a ∈ acc → query a = q) → ∀ a, a ∈ r.1 → query a = q).
Proof.
  revert acc w. induction els as [|el els IH]; intros acc w.
  - simpl. repeat split; [lia | lia | done].
  - cbn [parse_loop]. rewrite !filter_cons.
    pose proof (parse_article_outcome self q el) as Hel.
    destruct (read_error el) as [e |] eqn:Herr.
    + rewrite Hel. unfold mbind, state_bind, print.
      destruct (IH acc {| stdout := stdout w ++ [[9888; 65039]%N ++ lit "  Error parsing article: " ++ exn_msg e];
                          net := net w |}) as (Hlen & Hout & Hnet & Hq).
      destruct (decide (Some e = None)) as [|_]; [done |].
      destruct (decide (is_Some (Some e))) as [_ | Hn]; [| by destruct Hn].
      cbn [stdout net] in *. rewrite length_app in Hout. simpl in *.
      repeat split; [lia | lia | done | done].
    + destruct Hel as (a & -> & Hqa).
      destruct (IH (acc ++ [a]) w) as (Hlen & Hout & Hnet & Hq).
      destruct (decide (None = None)) as [_ |]; [| done].
      destruct (decide (is_Some (@None exn))) as [[? ?] | _]; [done |].
      rewrite length_app in Hlen. simpl in *.
      repeat split; [lia | lia | done |].
      intros Hacc. apply Hq. intros b [Hb | ->%list_elem_of_singleton]%elem_of_app;
        [by apply Hacc | done].
Qed.

Lemma search_news_queries (self : GoogleNewsSandbox)
    (query : str) (days : Z) (w : World Net) (articles : list Article) :
  (search_news self query days w).1 = Return articles →
  ∀ a, a ∈ articles → GoogleNews.query a = query.
Proof.
  unfold search_news, mbind, state_bind, mret, state_ret, print, external.
  cbn [stdout net].
  destruct (fetch_articles _ _ _ _) as [[els | e] n].
  - match goal with |- context [parse_loop ?s ?q ?l ?a ?w0] =>
      destruct (parse_loop_accounts s q l a w0) as (_ & _ & _ & Hq);
      destruct (parse_loop s q l a w0) as [parsed w'] end.
    simpl in *. intros [= <-]. apply Hq. by inversion 1.
  - destruct (is_Exception e); simpl; [| done].
    intros [= <-]. by inversion 1.
Qed.

(** X1: every article of a list that [search_news] returns is tagged with
    the query it was searched for. *)
Theorem search_news_articles_carry_query (self : GoogleNewsSandbox)
    (query : str) (days : Z) (w : World Net) (articles : list Article) :
  (search_news self query days w).1 = Return articles →
  ∀ a, a ∈ articles → GoogleNews.query a = query.
Proof. apply search_news_queries. Qed.


End Scraping.

(* --------------------------------------------------------------------- *)
(* Deduplication and the two aggregators                                  *)
(* --------------------------------------------------------------------- *)

Section Deduplication.
Import GoogleNews.
Context `{Platform}.

Lemma remove_duplicates_distinct (all_articles : list Article)
    (seen_titles : gset str) (unique_articles : list Article) :
  NoDup (title <$> all_articles) →
  (∀ a, a ∈ all_articles → title a ∉ seen_titles) →
  remove_duplicates all_articles seen_titles unique_articles
  = unique_articles ++ all_articles.
Proof.
  revert seen_titles unique_articles.
  induction all_articles as [|a l IH]; intros seen unique Hnd Hfresh.
  - simpl. by rewrite app_nil_r.
  - cbn [remove_duplicates]. rewrite fmap_cons in Hnd.
    apply NoDup_cons in Hnd as [Ha Hnd].
    destruct (decide (title a ∉ seen)) as [_ | Hin].
    + rewrite IH, <- app_assoc; [done | done |].
      intros b Hb [Heq%elem_of_singleton | Hs]%elem_of_union.
      * apply Ha. rewrite <- Heq. by apply list_elem_of_fmap_2.
      * apply (Hfresh b); [by right | done].
    + exfalso. apply Hin, Hfresh. by left.
Qed.

(** X3: deduplication loses no title and invents none: a title occurs
    among the deduplicated articles exactly when it occurs among the
    fetched ones, and the deduplicated articles are fetched articles, in
    the order in which they were fetched. *)
Theorem remove_duplicates_keeps_every_title (all_articles : list Article) :
  (∀ t, t ∈ title <$> remove_duplicates all_articles ∅ []
        ↔ t ∈ title <$> all_articles)
  ∧ remove_duplicates all_articles ∅ [] `sublist_of` all_articles.
Proof.
  destruct (remove_duplicates_spec all_articles ∅ [])
    as (kept & -> & Hsub & _ & _ & Hcov).
  simpl. split; [| done]. intros t. split.
  - intros (a & -> & Ha)%list_elem_of_fmap.
    apply list_elem_of_fmap_2. by eapply elem_of_sublist.
  - intros (a & -> & Ha)%list_elem_of_fmap.
    destruct (Hcov a Ha) as [Hs | Hk]; [set_solver | done].
Qed.

(** X4: articles with pairwise distinct titles pass through the
    deduplication unchanged. *)
Theorem remove_duplicates_distinct_titles (all_articles : list Article) :
  NoDup (title <$> all_articles) →
  remove_duplicates all_articles ∅ [] = all_articles.
Proof.
  intros Hnd. rewrite remove_duplicates_distinct; [done | done | set_solver].
Qed.

(** X5: of several articles with one title, the one fetched first is the
    one kept: an article whose title none of the articles before it
    carries is in the deduplicated list. *)
Theorem remove_duplicates_keeps_first (pre rest : list Article) (a : Article) :
  title a ∉ title <$> pre →
  a ∈ remove_duplicates (pre ++ a :: rest) ∅ [].
Proof. intros Hpre. apply remove_duplicates_first; [set_solver | done]. Qed.

(** X6: without a company name, [get_stock_news] makes one search, for
    the symbol, and returns its deduplicated result in full: the cap of
    15 cuts nothing.  What the search raises, [get_stock_news] raises. *)
Theorem get_stock_news_symbol_only (self : GoogleNewsSandbox) (symbol : str)
    (days : Z) (w : World Net) :
  get_stock_news self symbol [] days w
  = match search_news self symbol days w with
    | (Return articles, w') => (Return (remove_duplicates articles ∅ []), w')
    | (Raise e, w') => (Raise e, w')
    end.
Proof.
  rewrite get_stock_news_result.
  rewrite bool_decide_eq_false_2 by (intros Hne; by apply Hne).
  rewrite fetch_loop_cons.
  pose proof (search_news_outcome self symbol days w) as Hlen.
  destruct (search_news self symbol days w) as [[articles | e] w']; [| done].
  cbn [fetch_loop app]. unfold mret, state_ret. simpl in Hlen.
  do 2 f_equal. apply take_ge.
  destruct (remove_duplicates_spec articles ∅ []) as (kept & -> & Hsub & _).
  simpl. apply sublist_length in Hsub. lia.
Qed.

Lemma fetch_loop_queries (self : GoogleNewsSandbox) (days : Z)
    (queries : list str) (acc : list Article) (w : World Net)
    (articles : list Article) :
  (fetch_loop self days queries acc w).1 = Return articles →
  (∀ a, a ∈ acc → query a ∈ queries) →
  ∀ a, a ∈ articles → query a ∈ queries.
Proof.
  assert (∀ (qs all : list str) (acc : list Article) (w : World Net),
            (fetch_loop self days qs acc w).1 = Return articles →
            (∀ a, a ∈ acc → query a ∈ all) → (∀ q, q ∈ qs → q ∈ all) →
            ∀ a, a ∈ articles → query a ∈ all) as Hgen.
  { induction qs as [|q qs IH]; intros all acc' w'.
    - simpl. by intros [= <-].
    - rewrite fetch_loop_cons.
      pose proof (search_news_queries self q days w') as Hq.
      destruct (search_news self q days w') as [[found | e] w'']; [| done].
      intros Hloop Hacc Hqs. apply (IH all _ _ Hloop).
      + intros a [Ha | Ha]%elem_of_app; [by apply Hacc |].
        rewrite (Hq found eq_refl a Ha). apply Hqs. by left.
      + intros q' Hq'. apply Hqs. by right. }
  intros Hloop Hacc. by apply (Hgen queries queries acc w).
Qed.

(** X7: [get_market_news] makes three searches and no more, for the
    first three queries of its list ("stock market", "Wall Street" and
    "S&P 500") in this order, each starting where the one before
    stopped.  It returns the first 10 of the
    articles found, duplicates included, and leaves the console and the
    network as the third search left them, so the other four queries of
    its list are never searched.  A list it returns has at most 10
    articles, each found by one of the three queries. *)
Theorem get_market_news_first_three_queries (self : GoogleNewsSandbox)
    (days : Z) (w : World Net) :
  (∀ l1 w1 l2 w2 l3 w3,
     search_news self (lit "stock market") days w = (Return l1, w1) →
     search_news self (lit "Wall Street") days w1 = (Return l2, w2) →
     search_news self (lit "S&P 500") days w2 = (Return l3, w3) →
     get_market_news self days w = (Return (take 10 (l1 ++ l2 ++ l3)), w3))
  ∧ match (get_market_news self days w).1 with
    | Return articles =>
        (length articles ≤ 10)%nat
        ∧ ∀ a, a ∈ articles →
               query a ∈ [lit "stock market"; lit "Wall Street"; lit "S&P 500"]
    | Raise e => is_Exception e = false
    end.
Proof.
  unfold get_market_news.
  change (take 3 market_queries)
    with [lit "stock market"; lit "Wall Street"; lit "S&P 500"].
  unfold mbind, state_bind, mret, state_ret. split.
  - intros l1 w1 l2 w2 l3 w3 H1 H2 H3.
    rewrite fetch_loop_cons, H1, fetch_loop_cons, H2, fetch_loop_cons, H3.
    cbn [fetch_loop app]. unfold mret, state_ret. by rewrite <- app_assoc.
  - match goal with |- context [fetch_loop ?s ?d ?q ?a ?w0] =>
      pose proof (fetch_loop_queries s d q a w0) as Hq;
      pose proof (fetch_loop_outcome s d q a w0) as Hraise;
      destruct (fetch_loop s d q a w0) as [[all | e] w'] end;
      simpl in *; [| by apply Hraise].
    split; [rewrite length_take; lia |].
    intros a Ha. apply (Hq all eq_refl); [by inversion 1 |].
    eapply elem_of_sublist; [exact Ha | apply sublist_take].
Qed.

End Deduplication.

(* --------------------------------------------------------------------- *)
(* More on the sentiment scorer                                           *)
(* --------------------------------------------------------------------- *)

Lemma round3_between (x : Q) (a b : Z) :
  (a # 1000 <= x)%Q → (x <= b # 1000)%Q →
  (a # 1000 <= round3 x)%Q ∧ (round3 x <= b # 1000)%Q.
Proof.
  destruct x as [n d]. unfold round3, Qle. cbn [Qnum Qden]. intros Ha Hb.
  pose proof (Z.div_mod (n * 1000) (Z.pos d) ltac:(lia)) as Hdm.
  pose proof (Z.mod_pos_bound (n * 1000) (Z.pos d) ltac:(lia)) as Hr.
  set (k := n * 1000 / Z.pos d) in *.
  set (r := (n * 1000) mod Z.pos d) in *.
  assert (a ≤ k) by nia.
  assert (k ≤ b) by nia.
  assert (0 < r → k + 1 ≤ b) by nia.
  destruct (Z.compare_spec (2 * r) (Z.pos d)) as [Heq | Hlt | Hgt];
    [destruct (Z.even k) |..]; split; nia.
Qed.

Lemma filter_length_le {A} (P Q : A → Prop)
    `{!∀ x, Decision (P x)} `{!∀ x, Decision (Q x)} (l : list A) :
  (∀ x, P x → Q x) → (length (filter P l) ≤ length (filter Q l))%nat.
Proof.
  intros HPQ. induction l as [|x l IH]; [done |].
  rewrite !filter_cons.
  destruct (decide (P x)) as [HP | HP]; destruct (decide (Q x)) as [HQ | HQ];
    simpl; try lia.
  exfalso. by apply HQ, HPQ.
Qed.

Section SentimentMore.
Import GoogleNews.
Context `{Platform}.

Lemma analyze_sentiment_counts (self : GoogleNewsSandbox) (text : str) :
  positive_hits (analyze_sentiment self text)
  = count_words positive_words (lower text)
  ∧ negative_hits (analyze_sentiment self text)
    = count_words negative_words (lower text).
Proof.
  unfold analyze_sentiment.
  destruct (bool_decide _); [| destruct (bool_decide _)]; done.
Qed.

(** X8: both counts lie between 0 and 15, and the score lies between 0.5
    and 0.938 whatever the text: it says how one-sided the counted words
    are, and is never below the 0.5 of a neutral text. *)
Theorem analyze_sentiment_score_range (self : GoogleNewsSandbox) (text : str) :
  let r := analyze_sentiment self text in
  0 ≤ positive_hits r ≤ 15 ∧ 0 ≤ negative_hits r ≤ 15
  ∧ (1 # 2 <= score r)%Q ∧ (score r <= 938 # 1000)%Q.
Proof.
  cbn zeta.
  destruct (analyze_sentiment_counts self text) as [-> ->].
  pose proof (count_words_bounds positive_words (lower text)) as Hp.
  pose proof (count_words_bounds negative_words (lower text)) as Hn.
  change (Z.of_nat (length positive_words)) with 15 in Hp.
  change (Z.of_nat (length negative_words)) with 15 in Hn.
  split; [done |]. split; [done |].
  unfold analyze_sentiment.
  set (p := count_words positive_words (lower text)) in *.
  set (n := count_words negative_words (lower text)) in *.
  assert (∀ a b : Z, 0 ≤ b → b < a → a ≤ 15 →
            (500 # 1000 <= inject_Z a / inject_Z (a + b + 1))%Q
            ∧ (inject_Z a / inject_Z (a + b + 1) <= 938 # 1000)%Q) as Hquot.
  { intros a b Hb Hab Ha. destruct (a + b + 1) as [| d | d] eqn:Hd; try lia.
    unfold Qle, Qdiv, Qmult, Qinv, inject_Z. cbn [Qnum Qden]. split; nia. }
  destruct (bool_decide (p > n)) eqn:Hpn;
    [apply bool_decide_eq_true in Hpn | apply bool_decide_eq_false in Hpn];
    [| destruct (bool_decide (n > p)) eqn:Hnp;
       [apply bool_decide_eq_true in Hnp | apply bool_decide_eq_false in Hnp]];
    cbn [score].
  - destruct (Hquot p n) as [Hlo Hhi]; [lia | lia | lia |].
    destruct (round3_between _ 500 938 Hlo Hhi) as [Hlo' Hhi'].
    split; [| done]. revert Hlo'. unfold Qle. simpl. lia.
  - destruct (Hquot n p) as [Hlo Hhi]; [lia | lia | lia |].
    rewrite (Z.add_comm p n).
    destruct (round3_between _ 500 938 Hlo Hhi) as [Hlo' Hhi'].
    split; [| done]. revert Hlo'. unfold Qle. simpl. lia.
  - split; vm_compute; discriminate.
Qed.

(** X9: text around a text never lowers a count: when the lower-cased
    text occurs inside another lower-cased text, the other text has at
    least as many positive and at least as many negative hits. *)
Theorem analyze_sentiment_counts_grow (self : GoogleNewsSandbox)
    (text text' pre suf : str) :
  lower text' = pre ++ lower text ++ suf →
  let r := analyze_sentiment self text in
  let r' := analyze_sentiment self text' in
  positive_hits r ≤ positive_hits r' ∧ negative_hits r ≤ negative_hits r'.
Proof.
  intros Hsub. cbn zeta.
  destruct (analyze_sentiment_counts self text) as [-> ->].
  destruct (analyze_sentiment_counts self text') as [-> ->].
  assert (∀ w, contains (lower text) w = true → contains (lower text') w = true)
    as Hcont.
  { intros w (p1 & s1 & Hw)%contains_spec. apply contains_spec.
    exists (pre ++ p1), (s1 ++ suf). rewrite Hsub, Hw.
    by rewrite <- !app_assoc. }
  unfold count_words. rewrite !sum_ones.
  split; apply inj_le, filter_length_le, Hcont.
Qed.

(** The frame of [analyze_news_sentiment] has one row for each
    article, in the order of the articles, and the sentiment columns of a
    row are the analysis of the title of that row. *)
Lemma analyze_news_sentiment_rows (self : GoogleNewsSandbox)
    (articles : list Article) :
  let rows := analyze_news_sentiment self articles in
  row_title <$> rows = title <$> articles
  ∧ row_query <$> rows = query <$> articles
  ∧ ∀ row, row ∈ rows →
      row_sentiment row = sentiment (analyze_sentiment self (row_title row))
      ∧ row_sentiment_score row = score (analyze_sentiment self (row_title row)).
Proof.
  cbn zeta. unfold analyze_news_sentiment.
  destruct (bool_decide (articles = [])) eqn:Hnil.
  - apply bool_decide_eq_true in Hnil as ->.
    split; [done |]. split; [done |]. intros row Hrow. by inversion Hrow.
  - rewrite <- !list_fmap_compose. split; [done |]. split; [done |].
    intros row (a & -> & _)%list_elem_of_fmap. done.
Qed.

End SentimentMore.

(* --------------------------------------------------------------------- *)
(* More on the NewsAPI client                                             *)
(* --------------------------------------------------------------------- *)

Lemma dict_get_absent (d : list (str * pyval)) (key : str) (default : pyval) :
  key ∉ d.*1 → dict_get d key default = default.
Proof.
  induction d as [|[k v] d IH]; [done |]. simpl.
  intros [Hne Hd]%not_elem_of_cons.
  destruct (decide (k = key)); [congruence | by apply IH].
Qed.

Lemma dict_get_present (d : list (str * pyval)) (key : str) (v default : pyval) :
  NoDup d.*1 → (key, v) ∈ d → dict_get d key default = v.
Proof.
  induction d as [|[k x] d IH]; [by inversion 2 |]. simpl.
  intros [Hk Hnd]%NoDup_cons [Heq | Hin]%elem_of_cons.
  - injection Heq as -> ->. by destruct (decide (k = k)).
  - destruct (decide (k = key)) as [-> | _]; [| by apply IH].
    exfalso. apply Hk. by apply (list_elem_of_fmap_2 fst) in Hin.
Qed.

Lemma bind_keywords_known (name : str) (signature kwargs : list (str * pyval)) :
  (∀ k, k ∈ kwargs.*1 → k ∈ signature.*1) →
  NewsClient.bind_keywords name signature kwargs
  = Return ((λ p, (p.1, dict_get kwargs p.1 p.2)) <$> signature).
Proof.
  intros Hknown. unfold NewsClient.bind_keywords.
  destruct (list_find _ kwargs) as [[i [k v]] |] eqn:Hfind; [| done].
  apply list_find_Some in Hfind as (Hi & Hbad & _). exfalso. apply Hbad.
  apply Hknown. apply list_elem_of_lookup_2 in Hi.
  by apply (list_elem_of_fmap_2 fst) in Hi.
Qed.

Lemma bind_keywords_unknown (name : str) (signature kwargs : list (str * pyval))
    (k : str) :
  k ∈ kwargs.*1 → k ∉ signature.*1 →
  ∃ msg, NewsClient.bind_keywords name signature kwargs = Raise (TypeError msg).
Proof.
  intros Hk Hunknown. unfold NewsClient.bind_keywords.
  destruct (list_find _ kwargs) as [[i [k' v]] |] eqn:Hfind; [by eexists |].
  apply list_find_None in Hfind. exfalso.
  apply list_elem_of_fmap in Hk as ([k0 v0] & -> & Hin).
  rewrite Forall_forall in Hfind. by apply (Hfind _ Hin).
Qed.

Lemma parse_article_data_error (x : pyval) (e : exn) :
  NewsClient.parse_article_data x = Raise e → exn_class e = lit "AttributeError".
Proof.
  unfold NewsClient.parse_article_data, NewsClient.get, mbind, result_bind, mret, result_ret.
  destruct x; try (by intros [= <-]).
  destruct (dict_get d _ _); by intros [= <-].
Qed.

Lemma parse_articles_outcome (items : list pyval) (acc : list NewsClient.NewsArticle) :
  match NewsClient.parse_articles items acc with
  | Return l => length l = (length acc + length items)%nat
                ∧ ∀ x, x ∈ items → returns (NewsClient.parse_article_data x) = true
  | Raise e => exn_class e = lit "AttributeError"
  end.
Proof.
  revert acc. induction items as [|x items IH]; intros acc.
  - simpl. split; [lia | by inversion 1].
  - cbn [NewsClient.parse_articles]. unfold mbind at 1, result_bind.
    destruct (NewsClient.parse_article_data x) as [a | e] eqn:Hx.
    + specialize (IH (acc ++ [a])).
      destruct (NewsClient.parse_articles items (acc ++ [a])); [| done].
      destruct IH as [Hlen Hall]. rewrite length_app in Hlen. simpl in *.
      split; [lia |]. intros y [-> | Hy]%elem_of_cons; [by rewrite Hx | by apply Hall].
    + by apply parse_article_data_error in Hx.
Qed.

Section ClientMore.
Import NewsClient.
Context `{Api}.

(** X10: with keywords that all name parameters of [get_top_headlines],
    the method calls the library once, with the seven parameters in the
    order of the signature: a parameter has the value of its keyword when
    the call gives one and its default otherwise; the answer is parsed,
    nothing is printed. *)
Theorem get_top_headlines_passes_keywords (self : NewsAPIClient)
    (kwargs : list (str * pyval)) (w : World Net) :
  NoDup kwargs.*1 →
  (∀ k, k ∈ kwargs.*1 → k ∈ top_headlines_signature.*1) →
  ∃ args,
    args.*1 = top_headlines_signature.*1
    ∧ (∀ k v, (k, v) ∈ kwargs → (k, v) ∈ args)
    ∧ (∀ k d, (k, d) ∈ top_headlines_signature → k ∉ kwargs.*1 → (k, d) ∈ args)
    ∧ get_top_headlines self kwargs w
      = (reraise (lit "Error fetching top headlines: ")
           ((api_get_top_headlines (client self) args (net w)).1
              ≫= _parse_response self),
         {| stdout := stdout w;
            net := (api_get_top_headlines (client self) args (net w)).2 |}).
Proof.
  intros Hnd Hknown.
  exists ((λ p : str * pyval, (p.1, dict_get kwargs p.1 p.2))
            <$> top_headlines_signature).
  split; [| split; [| split]]; last first.
  - unfold get_top_headlines.
    rewrite (bind_keywords_known _ _ _ Hknown).
    unfold mbind at 1, state_bind, mret, state_ret, external.
    by destruct (api_get_top_headlines _ _ _) as [r n].
  - intros k d Hsig Hk. apply list_elem_of_fmap. exists (k, d).
    split; [| done]. simpl. by rewrite dict_get_absent.
  - intros k v Hkv.
    assert (k ∈ top_headlines_signature.*1) as (p & -> & Hp)%list_elem_of_fmap
      by (apply Hknown; by apply (list_elem_of_fmap_2 fst) in Hkv).
    apply list_elem_of_fmap. exists p. split; [| done].
    by rewrite (dict_get_present _ _ v).
  - by rewrite <- list_fmap_compose.
Qed.

(** X11: a keyword that names no parameter of [get_top_headlines] makes
    the call raise [TypeError] before anything happens: the library is
    not called and the error is not wrapped into an [Exception]. *)
Theorem get_top_headlines_unexpected_keyword (self : NewsAPIClient)
    (kwargs : list (str * pyval)) (k : str) (w : World Net) :
  k ∈ kwargs.*1 → k ∉ top_headlines_signature.*1 →
  ∃ msg, get_top_headlines self kwargs w = (Raise (TypeError msg), w).
Proof.
  intros Hk Hunknown. unfold get_top_headlines.
  destruct (bind_keywords_unknown (lit "NewsAPIClient.get_top_headlines")
              _ _ k Hk Hunknown) as [msg ->].
  by exists msg.
Qed.

(** X12: whatever the keywords, whatever the library raises and whatever
    it answers, [get_top_headlines] prints nothing; an exception that
    leaves it is a [TypeError] of the call, a plain [Exception] whose
    message starts with the fixed prefix, so that the class of the
    original exception is lost, or an exception that is no [Exception]
    and passes through. *)
Theorem get_top_headlines_exceptions (self : NewsAPIClient)
    (kwargs : list (str * pyval)) (w : World Net) :
  stdout (get_top_headlines self kwargs w).2 = stdout w
  ∧ ∀ e, (get_top_headlines self kwargs w).1 = Raise e →
         exn_class e = lit "TypeError"
         ∨ (exn_class e = lit "Exception"
            ∧ ∃ msg, exn_msg e = lit "Error fetching top headlines: " ++ msg)
         ∨ is_Exception e = false.
Proof.
  unfold get_top_headlines, bind_keywords.
  destruct (list_find _ kwargs) as [[i [k v]] |].
  - split; [done |]. intros e [= <-]. by left.
  - unfold mbind, state_bind, mret, state_ret, external.
    destruct (api_get_top_headlines _ _ _) as [r n]. cbn [fst snd stdout].
    split; [done |]. intros e. unfold reraise.
    destruct (result_bind _ _ _ r) as [resp | e']; [done |].
    destruct (is_Exception e') eqn:He'; intros [= <-].
    + right. left. split; [done | by eexists].
    + by right; right.
Qed.

(** X13: when [_parse_response] returns, it returns one article for each
    item of the list under "articles" (none when the key is missing),
    with the status and the total of the response or their defaults; the
    total is copied, not checked against the number of articles. *)
Theorem parse_response_one_article_per_item (self : NewsAPIClient)
    (d : list (str * pyval)) (items : list pyval) (r : NewsResponse) :
  dict_get d (lit "articles") (PyList []) = PyList items →
  _parse_response self (PyDict d) = Return r →
  length (articles r) = length items
  ∧ status r = dict_get d (lit "status") (PyStr [])
  ∧ total_results r = dict_get d (lit "totalResults") (PyInt 0).
Proof.
  intros Hitems. unfold _parse_response, get, iterate.
  unfold mbind at 1 2, result_bind. rewrite Hitems.
  pose proof (parse_articles_outcome items []) as Hout.
  unfold mbind at 1, result_bind.
  destruct (parse_articles items []) as [l | e]; [| done].
  unfold mbind, result_bind, mret, result_ret. intros [= <-].
  destruct Hout as [Hlen _]. simpl in *. by rewrite Hlen.
Qed.

(** X14: one item without a usable source is enough to lose the whole
    response: when the list under "articles" holds an item whose
    "source" is [None], [_parse_response] raises [AttributeError]. *)
Theorem parse_response_null_source (self : NewsAPIClient)
    (d a : list (str * pyval)) (items : list pyval) :
  dict_get d (lit "articles") (PyList []) = PyList items →
  PyDict a ∈ items →
  dict_get a (lit "source") (PyDict []) = PyNone →
  ∃ msg, _parse_response self (PyDict d) = Raise (AttributeError msg).
Proof.
  intros Hitems Hin Hsrc. unfold _parse_response, get, iterate.
  unfold mbind at 1 2, result_bind. rewrite Hitems.
  pose proof (parse_articles_outcome items []) as Hout.
  unfold mbind at 1, result_bind.
  destruct (parse_articles items []) as [l | [c msg]].
  - destruct Hout as [_ Hall]. specialize (Hall _ Hin).
    unfold parse_article_data, get, mbind, result_bind in Hall.
    rewrite Hsrc in Hall. done.
  - simpl in Hout. subst c. by exists msg.
Qed.

End ClientMore.

(* --------------------------------------------------------------------- *)
(* The inference scripts                                                  *)
(* --------------------------------------------------------------------- *)

Section InferenceScripts.
Import Inference.
Context `{Hub}.

(** X15: without [HUGGINGFACE_TOKEN] in the environment,
    [get_bart_summary] and [get_financial_sentiment] make no request:
    each returns [None] and prints the same line, which names the missing
    key and speaks of a summarization request in both scripts. *)
Theorem summary_and_sentiment_without_token (environ : gmap str str)
    (text : str) (w : World Net) :
  environ !! lit "HUGGINGFACE_TOKEN" = None →
  let w' := {| stdout := stdout w
                 ++ [lit "Error making summarization request: 'HUGGINGFACE_TOKEN'"];
               net := net w |} in
  get_bart_summary environ text w = (Return PyNone, w')
  ∧ get_financial_sentiment environ text w = (Return PyNone, w').
Proof.
  intros Henv.
  unfold get_bart_summary, get_financial_sentiment, try_except, environ_getitem.
  rewrite Henv. split; reflexivity.
Qed.

(** X16: with a token, [get_financial_sentiment] classifies the text
    behind the prefix "summarize: ", not the text itself; it returns the
    answer of the classifier as it is; on an exception [e] that is an
    [Exception] it returns [None] after printing one line with [str(e)];
    any other exception it lets through, printing nothing. *)
Theorem get_financial_sentiment_classifies_prefixed_text
    (environ : gmap str str) (token text : str) (w : World Net) :
  environ !! lit "HUGGINGFACE_TOKEN" = Some token →
  get_financial_sentiment environ text w
  = match text_classification
            (lit "mrm8488/distilroberta-finetuned-financial-news-sentiment-analysis")
            token (lit "summarize: " ++ text) (net w) with
    | (Return answer, n) => (Return answer, {| stdout := stdout w; net := n |})
    | (Raise e, n) =>
        if is_Exception e then
          (Return PyNone,
           {| stdout := stdout w
                ++ [lit "Error making summarization request: " ++ exn_msg e];
              net := n |})
        else (Raise e, {| stdout := stdout w; net := n |})
    end.
Proof.
  intros Henv.
  unfold get_financial_sentiment, try_except, environ_getitem.
  rewrite Henv. unfold mbind, state_bind, mret, state_ret, external, print.
  destruct (text_classification _ _ _ _) as [[answer | e] n]; [done |].
  by destruct (is_Exception e).
Qed.

(** X17: [get_llama_completion] reports every [KeyError] as a missing
    token: when the token is set and the request itself raises a
    [KeyError], the line printed still says that [HUGGINGFACE_TOKEN] was
    not found, and [None] is returned. *)
Theorem get_llama_completion_blames_token (environ : gmap str str)
    (api_key prompt system_message : str) (w : World Net) (e : exn) (n : Net) :
  environ !! lit "HUGGINGFACE_TOKEN" = Some api_key →
  exn_class e = lit "KeyError" →
  chat_completion api_key (lit "meta-llama/Llama-3.3-70B-Instruct")
    [(lit "system", system_message); (lit "user", prompt)] (net w) = (Raise e, n) →
  get_llama_completion environ prompt system_message w
  = (Return PyNone,
     {| stdout := stdout w
          ++ [[10060]%N ++ lit " Error: HUGGINGFACE_TOKEN environment variable not found"];
        net := n |}).
Proof.
  intros Henv Hclass Hcall.
  unfold get_llama_completion, try_except, environ_getitem.
  rewrite Henv. unfold mbind, state_bind, mret, state_ret, external, print.
  rewrite Hcall. cbn [result_bind]. unfold is_Exception. by rewrite Hclass.
Qed.

(** X18: a completion without choices is an error like any other: when
    the request answers with no choice, [get_llama_completion] returns
    [None] and prints the message of the [IndexError]; with choices it
    returns the message of the first one and prints nothing. *)
Theorem get_llama_completion_first_choice (environ : gmap str str)
    (api_key prompt system_message : str) (w : World Net)
    (choices : list pyval) (n : Net) :
  environ !! lit "HUGGINGFACE_TOKEN" = Some api_key →
  chat_completion api_key (lit "meta-llama/Llama-3.3-70B-Instruct")
    [(lit "system", system_message); (lit "user", prompt)] (net w)
    = (Return choices, n) →
  get_llama_completion environ prompt system_message w
  = match choices with
    | message :: _ => (Return message, {| stdout := stdout w; net := n |})
    | [] =>
        (Return PyNone,
         {| stdout := stdout w
              ++ [[10060]%N ++ lit " Error making inference request: list index out of range"];
            net := n |})
    end.
Proof.
  intros Henv Hcall.
  unfold get_llama_completion, try_except, environ_getitem.
  rewrite Henv. unfold mbind, state_bind, mret, state_ret, external, print.
  rewrite Hcall. by destruct choices.
Qed.

End InferenceScripts.

(* --------------------------------------------------------------------- *)
(* The Yahoo Finance sandbox                                              *)
(* --------------------------------------------------------------------- *)

Lemma is_Exception_AttributeError (msg : str) :
  is_Exception (AttributeError msg) = true.
Proof. reflexivity. Qed.

Section StockInfo.
Import YahooFinance.
Context `{Yahoo}.

(** X19: when [get_stock_info] returns, it has printed exactly one line
    and returns either the empty dict or a dict with exactly the twelve
    keys of the record, in their order, whose "Symbol" is the symbol
    asked for.  The one exception that it lets through is one that the
    provider raised and that is no [Exception]; nothing is printed
    then. *)
Theorem get_stock_info_shape (symbol : str) (w : World Net) :
  let r := get_stock_info symbol w in
  match r.1 with
  | Return stock_info =>
      length (stdout r.2) = S (length (stdout w))
      ∧ (stock_info = []
         ∨ stock_info.*1
           = lit <$> ["Symbol"; "Name"; "Sector"; "Industry"; "Market Cap";
                      "Current Price"; "52 Week High"; "52 Week Low";
                      "P/E Ratio"; "Dividend Yield"; "Volume"; "Beta"]%string
           ∧ dict_get stock_info (lit "Symbol") PyNone = PyStr symbol)
  | Raise e =>
      is_Exception e = false
      ∧ (ticker_info symbol (net w)).1 = Raise e
      ∧ stdout r.2 = stdout w
  end.
Proof.
  unfold get_stock_info, try_except, mbind, state_bind, mret, state_ret,
    external, print.
  destruct (ticker_info symbol (net w)) as [[info | e] n]; cbn [result_bind].
  - unfold stock_info, NewsClient.get, mbind, result_bind, mret, result_ret.
    destruct info; rewrite ?is_Exception_AttributeError; cbn [fst snd stdout];
      (split; [rewrite length_app; simpl; lia |]);
      try (by left).
    right. split; reflexivity.
  - destruct (is_Exception e) eqn:He; cbn [fst snd stdout].
    + split; [rewrite length_app; simpl; lia | by left].
    + done.
Qed.

(** X20: a key that the provider's [info] lacks is not an error: every
    field of the record is the value of its key in [info], or a
    placeholder, "N/A" for the three texts and 0 for the eight numbers. *)
Theorem get_stock_info_placeholders (symbol : str) (w : World Net)
    (d : list (str * pyval)) (n : Net) :
  ticker_info symbol (net w) = (Return (PyDict d), n) →
  (get_stock_info symbol w).1
  = Return
    [(lit "Symbol", PyStr symbol);
     (lit "Name", dict_get d (lit "longName") (PyStr (lit "N/A")));
     (lit "Sector", dict_get d (lit "sector") (PyStr (lit "N/A")));
     (lit "Industry", dict_get d (lit "industry") (PyStr (lit "N/A")));
     (lit "Market Cap", dict_get d (lit "marketCap") (PyInt 0));
     (lit "Current Price", dict_get d (lit "currentPrice") (PyInt 0));
     (lit "52 Week High", dict_get d (lit "fiftyTwoWeekHigh") (PyInt 0));
     (lit "52 Week Low", dict_get d (lit "fiftyTwoWeekLow") (PyInt 0));
     (lit "P/E Ratio", dict_get d (lit "trailingPE") (PyInt 0));
     (lit "Dividend Yield", dict_get d (lit "dividendYield") (PyInt 0));
     (lit "Volume", dict_get d (lit "volume") (PyInt 0));
     (lit "Beta", dict_get d (lit "beta") (PyInt 0))].
Proof.
  intros Hinfo.
  unfold get_stock_info, try_except, mbind, state_bind, mret, state_ret,
    external, print.
  by rewrite Hinfo.
Qed.

End StockInfo.

(* --------------------------------------------------------------------- *)
(* The further properties at concrete inputs                              *)
(* --------------------------------------------------------------------- *)

Lemma search_news_articles_carry_query_witness :
  GoogleNews.query (GoogleNews.headline_article (lit "Apple up") (lit "AAPL"))
  = lit "AAPL".
Proof.
  apply (search_news_articles_carry_query (H := GoogleNews.table_platform)
           GoogleNews.__init__ (lit "AAPL") 7 GoogleNews.sample_world
           [GoogleNews.headline_article (lit "Apple up") (lit "AAPL");
            GoogleNews.headline_article (lit "Apple up") (lit "AAPL")]).
  - vm_compute. reflexivity.
  - left.
Defined.


Lemma remove_duplicates_distinct_titles_witness :
  GoogleNews.remove_duplicates
    [GoogleNews.headline_article (lit "Apple up") (lit "AAPL");
     GoogleNews.headline_article (lit "Apple down") (lit "AAPL")] ∅ []
  = [GoogleNews.headline_article (lit "Apple up") (lit "AAPL");
     GoogleNews.headline_article (lit "Apple down") (lit "AAPL")].
Proof.
  apply remove_duplicates_distinct_titles.
  apply (bool_decide_unpack _). vm_compute. exact I.
Defined.

Lemma remove_duplicates_keeps_first_witness :
  GoogleNews.headline_article (lit "Apple up") (lit "AAPL")
  ∈ GoogleNews.remove_duplicates
      ([GoogleNews.headline_article (lit "Apple down") (lit "AAPL")]
         ++ GoogleNews.headline_article (lit "Apple up") (lit "AAPL")
         :: [GoogleNews.headline_article (lit "Apple up") (lit "Apple Inc.")]) ∅ [].
Proof.
  apply remove_duplicates_keeps_first.
  apply (bool_decide_unpack _). vm_compute. exact I.
Defined.

Lemma analyze_sentiment_counts_grow_witness :
  let r := GoogleNews.analyze_sentiment (H := GoogleNews.table_platform)
             GoogleNews.__init__ (lit "UP") in
  let r' := GoogleNews.analyze_sentiment (H := GoogleNews.table_platform)
              GoogleNews.__init__ (lit "Markup") in
  GoogleNews.positive_hits r ≤ GoogleNews.positive_hits r'
  ∧ GoogleNews.negative_hits r ≤ GoogleNews.negative_hits r'.
Proof.
  apply (analyze_sentiment_counts_grow (H := GoogleNews.table_platform)
           GoogleNews.__init__ (lit "UP") (lit "Markup") (lit "mark") []).
  vm_compute. reflexivity.
Defined.

Lemma get_top_headlines_passes_keywords_witness :
  ∃ args,
    (lit "q", PyStr (lit "apple")) ∈ args
    ∧ (lit "page_size", PyInt 20) ∈ args
    ∧ NewsClient.get_top_headlines (H := NewsClient.empty_api)
        {| NewsClient.client := lit "k" |} [(lit "q", PyStr (lit "apple"))]
        {| stdout := []; net := () |}
      = (NewsClient.reraise (lit "Error fetching top headlines: ")
           ((NewsClient.api_get_top_headlines (Api := NewsClient.empty_api)
               (lit "k") args ()).1
              ≫= NewsClient._parse_response {| NewsClient.client := lit "k" |}),
         {| stdout := [];
            net := (NewsClient.api_get_top_headlines (Api := NewsClient.empty_api)
                      (lit "k") args ()).2 |}).
Proof.
  destruct (get_top_headlines_passes_keywords (H := NewsClient.empty_api)
              {| NewsClient.client := lit "k" |} [(lit "q", PyStr (lit "apple"))]
              {| stdout := []; net := () |})
    as (args & _ & Hgiven & Hdefault & Hcall).
  - apply (bool_decide_unpack _). vm_compute. exact I.
  - intros k ->%list_elem_of_singleton.
    apply (bool_decide_unpack _). vm_compute. exact I.
  - exists args. split; [| split].
    + apply Hgiven. by left.
    + apply Hdefault.
      * apply list_elem_of_In. vm_compute. tauto.
      * apply (bool_decide_unpack _). vm_compute. exact I.
    + exact Hcall.
Defined.

Lemma get_top_headlines_unexpected_keyword_witness :
  ∃ msg,
    NewsClient.get_top_headlines (H := NewsClient.empty_api)
      {| NewsClient.client := lit "k" |} [(lit "domains", PyStr (lit "bbc.co.uk"))]
      {| stdout := []; net := () |}
    = (Raise (TypeError msg), {| stdout := []; net := () |}).
Proof.
  apply (get_top_headlines_unexpected_keyword (H := NewsClient.empty_api)
           _ _ (lit "domains")).
  - apply (bool_decide_unpack _). vm_compute. exact I.
  - apply (bool_decide_unpack _). vm_compute. exact I.
Defined.

Lemma get_top_headlines_exceptions_witness :
  let e := Exception (lit "Error fetching top headlines: unreachable") in
  exn_class e = lit "TypeError"
  ∨ (exn_class e = lit "Exception"
     ∧ ∃ msg, exn_msg e = lit "Error fetching top headlines: " ++ msg)
  ∨ is_Exception e = false.
Proof.
  exact (proj2 (get_top_headlines_exceptions
                  (H := NewsClient.failing_api
                          (Exn (lit "ConnectionError") (lit "unreachable")))
                  {| NewsClient.client := lit "k" |} []
                  {| stdout := []; net := () |})
               (Exception (lit "Error fetching top headlines: unreachable"))
               ltac:(vm_compute; reflexivity)).
Defined.

Lemma parse_response_one_article_per_item_witness :
  length (NewsClient.articles
            {| NewsClient.status := PyStr (lit "ok");
               NewsClient.total_results := PyInt 38;
               NewsClient.articles := [] |}) = 0%nat.
Proof.
  exact (proj1 (parse_response_one_article_per_item
                  {| NewsClient.client := lit "k" |}
                  [(lit "status", PyStr (lit "ok")); (lit "totalResults", PyInt 38)]
                  [] _ ltac:(reflexivity) ltac:(reflexivity))).
Defined.

Lemma parse_response_null_source_witness :
  ∃ msg,
    NewsClient._parse_response {| NewsClient.client := lit "k" |}
      (PyDict [(lit "articles",
                PyList [PyDict [(lit "title", PyStr (lit "t"))];
                        PyDict [(lit "source", PyNone)]])])
    = Raise (AttributeError msg).
Proof.
  apply (parse_response_null_source {| NewsClient.client := lit "k" |} _
           [(lit "source", PyNone)]
           [PyDict [(lit "title", PyStr (lit "t"))]; PyDict [(lit "source", PyNone)]]).
  - reflexivity.
  - right. left.
  - reflexivity.
Defined.

Lemma summary_and_sentiment_without_token_witness :
  (Inference.get_bart_summary (H := Inference.echo_hub) (∅ : gmap str str)
     (lit "text") {| stdout := []; net := () |}).1 = Return PyNone.
Proof.
  assert ((∅ : gmap str str) !! lit "HUGGINGFACE_TOKEN" = None) as Henv
    by (vm_compute; reflexivity).
  rewrite (proj1 (summary_and_sentiment_without_token (H := Inference.echo_hub)
                    _ (lit "text") {| stdout := []; net := () |} Henv)).
  reflexivity.
Defined.

Lemma get_financial_sentiment_classifies_prefixed_text_witness :
  (Inference.get_financial_sentiment (H := Inference.echo_hub)
     ({[ lit "HUGGINGFACE_TOKEN" := lit "hf_x" ]} : gmap str str) (lit "Apple falls")
     {| stdout := []; net := () |}).1
  = Return (PyStr (lit "summarize: Apple falls")).
Proof.
  assert (({[ lit "HUGGINGFACE_TOKEN" := lit "hf_x" ]} : gmap str str)
            !! lit "HUGGINGFACE_TOKEN" = Some (lit "hf_x")) as Henv
    by (vm_compute; reflexivity).
  rewrite (get_financial_sentiment_classifies_prefixed_text
             (H := Inference.echo_hub) _ _ (lit "Apple falls")
             {| stdout := []; net := () |} Henv).
  reflexivity.
Defined.

Lemma get_llama_completion_blames_token_witness :
  stdout (Inference.get_llama_completion
            (H := Inference.failing_hub (KeyError (lit "'choices'")))
            ({[ lit "HUGGINGFACE_TOKEN" := lit "hf_x" ]} : gmap str str) (lit "Hello")
            Inference.default_system_message {| stdout := []; net := () |}).2
  = [[10060]%N ++ lit " Error: HUGGINGFACE_TOKEN environment variable not found"].
Proof.
  assert (({[ lit "HUGGINGFACE_TOKEN" := lit "hf_x" ]} : gmap str str)
            !! lit "HUGGINGFACE_TOKEN" = Some (lit "hf_x")) as Henv
    by (vm_compute; reflexivity).
  rewrite (get_llama_completion_blames_token
             (H := Inference.failing_hub (KeyError (lit "'choices'")))
             _ _ (lit "Hello") Inference.default_system_message
             {| stdout := []; net := () |} (KeyError (lit "'choices'")) ()
             Henv eq_refl eq_refl).
  reflexivity.
Defined.

Lemma get_llama_completion_first_choice_witness :
  (Inference.get_llama_completion (H := Inference.echo_hub)
     ({[ lit "HUGGINGFACE_TOKEN" := lit "hf_x" ]} : gmap str str) (lit "Hello")
     Inference.default_system_message {| stdout := []; net := () |}).1
  = Return PyNone.
Proof.
  assert (({[ lit "HUGGINGFACE_TOKEN" := lit "hf_x" ]} : gmap str str)
            !! lit "HUGGINGFACE_TOKEN" = Some (lit "hf_x")) as Henv
    by (vm_compute; reflexivity).
  rewrite (get_llama_completion_first_choice (H := Inference.echo_hub)
             _ _ (lit "Hello") Inference.default_system_message
             {| stdout := []; net := () |} [] () Henv eq_refl).
  reflexivity.
Defined.

Lemma get_stock_info_placeholders_witness :
  (λ stock_info, dict_get stock_info (lit "Name") PyNone)
    <$> (YahooFinance.get_stock_info
           (H := YahooFinance.constant_yahoo (Return (PyDict [])))
           (lit "ZZZZ") {| stdout := []; net := () |}).1
  = Return (PyStr (lit "N/A")).
Proof.
  rewrite (get_stock_info_placeholders
             (H := YahooFinance.constant_yahoo (Return (PyDict [])))
             (lit "ZZZZ") {| stdout := []; net := () |} [] ()
             ltac:(reflexivity)).
  reflexivity.
Defined.

Lemma get_market_news_first_three_queries_witness :
  ∃ l1 l2,
    length l1 = 6%nat ∧ length l2 = 6%nat
    ∧ (GoogleNews.get_market_news (H := GoogleNews.table_platform)
         GoogleNews.__init__ 7 GoogleNews.market_world).1
      = Return (take 10 (l1 ++ l2 ++ [])).
Proof.
  pose (search := GoogleNews.search_news (H := GoogleNews.table_platform)
                    GoogleNews.__init__).
  destruct (search (lit "stock market") 7 GoogleNews.market_world)
    as [[l1 | e1] w1] eqn:H1; [| vm_compute in H1; discriminate].
  destruct (search (lit "Wall Street") 7 w1)
    as [[l2 | e2] w2] eqn:H2;
    [| vm_compute in H1; injection H1 as _ <-; vm_compute in H2; discriminate].
  destruct (search (lit "S&P 500") 7 w2) as [r3 w3] eqn:H3.
  assert (length l1 = 6%nat ∧ length l2 = 6%nat ∧ r3 = Return []) as (Hl1 & Hl2 & ->).
  { vm_compute in H1. injection H1 as <- <-.
    vm_compute in H2. injection H2 as <- <-.
    vm_compute in H3. injection H3 as <- <-. repeat split. }
  exists l1, l2. split; [exact Hl1 | split; [exact Hl2 |]].
  by rewrite (proj1 (get_market_news_first_three_queries
                       (H := GoogleNews.table_platform)
                       GoogleNews.__init__ 7 GoogleNews.market_world)
                    l1 w1 l2 w2 [] w3 H1 H2 H3).
Defined.
